(** * The Poof SDK (poof-bg/js): a shallow embedding and its properties

    The development follows the layout of the TypeScript sources:

    - [Js]      the part of the JavaScript runtime the sources rely on
                (values read from JSON, thrown completions, look-ups in
                object literals, the [Blob] constructor);
    - [Errors]  [errors.ts]: the [PoofError] hierarchy, [ERROR_MAP] and
                [PoofError.fromResponse];
    - [Utils]   [utils.ts]: [detectMimeType], [getExtension], [toBlob],
                [getFilename];
    - [Client]  [client.ts]: the [Poof] class.

    JavaScript strings are modelled by [string] (sequences of 8-bit
    characters); every string the sources compare against is ASCII. *)

From Stdlib Require Import Strings.String Strings.Ascii Strings.Byte.
From Stdlib Require Import List Arith NArith Bool Lia.
From Stdlib Require Import DecimalString.
Import ListNotations.
Open Scope string_scope.
Set Warnings "-register-all".

(* ================================================================== *)
(** * The JavaScript runtime, as far as the sources use it *)
(* ================================================================== *)

Module Js.

(** An IEEE double is never computed with by the SDK, only carried from
    the wire to the caller; it is represented by its canonical rendering
    ([Number.prototype.toString]): ["1000"], ["0.5"], ["NaN"]. *)
Definition number := string.

(** What [JSON.parse] produces, plus [undefined], which reading an
    absent property produces.  The fields of an [Obj] are its own
    properties, each key at most once. *)
Inductive value : Type :=
| Undefined
| Null
| Bool (b : bool)
| Num (n : number)
| Str (s : string)
| Arr (elems : list value)
| Obj (fields : list (string * value)).

(** The classes of the SDK's own error hierarchy ([errors.ts]). *)
Inductive ErrorClass : Type :=
| PoofErrorC
| AuthenticationErrorC
| PermissionErrorC
| PaymentRequiredErrorC
| RateLimitErrorC
| ValidationErrorC
| ServerErrorC.

(** An instance of [PoofError] or of one of its subclasses.  [code],
    [requestId] and [details] are stored by the constructor as they are
    given; [status] is only ever given a number or nothing. *)
Record PoofError : Type := mkPoofError {
  cls : ErrorClass;
  message : string;
  code : value;
  status : option N;
  requestId : value;
  details : value
}.

(** What a [throw] (or a rejected promise) carries. *)
Inductive exn : Type :=
| ExPoof (e : PoofError)          (* a PoofError or a subclass of it *)
| ExError (msg : string)          (* a plain [new Error(msg)] *)
| ExTypeError                     (* raised by the runtime itself *)
| ExSyntaxError                   (* [response.json()] on a malformed body *)
| ExAbortError                    (* [fetch] rejected through its signal *)
| ExTransport (reason : string)   (* any other rejection of [fetch] *)
| ExFs (reason : string)          (* a rejection of [fs.readFile] *)
| ExObject (arg : value).         (* the object [new Object(arg, ...)] *)

(** The name of the class of a thrown object, which is what
    [instanceof] and [error.name] let a caller branch on. *)
Definition class_name (c : ErrorClass) : string :=
  match c with
  | PoofErrorC => "PoofError"
  | AuthenticationErrorC => "AuthenticationError"
  | PermissionErrorC => "PermissionError"
  | PaymentRequiredErrorC => "PaymentRequiredError"
  | RateLimitErrorC => "RateLimitError"
  | ValidationErrorC => "ValidationError"
  | ServerErrorC => "ServerError"
  end.

Definition exn_kind (x : exn) : string :=
  match x with
  | ExPoof e => class_name (cls e)
  | ExError _ => "Error"
  | ExTypeError => "TypeError"
  | ExSyntaxError => "SyntaxError"
  | ExAbortError => "AbortError"
  | ExTransport _ => "TypeError"
  | ExFs _ => "Error"
  | ExObject (Str _) => "String"
  | ExObject (Num _) => "Number"
  | ExObject (Bool _) => "Boolean"
  | ExObject (Arr _) => "Array"
  | ExObject _ => "Object"
  end.

(** A computation that returns or throws. *)
Inductive completion (A : Type) : Type :=
| Normal (a : A)
| Throw (x : exn).
Arguments Normal {A} a.
Arguments Throw {A} x.

Definition bind {A B : Type} (c : completion A) (k : A -> completion B)
  : completion B :=
  match c with
  | Normal a => k a
  | Throw x => Throw x
  end.

(** ** Strings *)

Definition is_upper (c : ascii) : bool :=
  let n := N_of_ascii c in (65 <=? n)%N && (n <=? 90)%N.

Definition lower_ascii (c : ascii) : ascii :=
  if is_upper c then ascii_of_N (N_of_ascii c + 32) else c.

(** [String.prototype.toLowerCase], which on ASCII is this function.
    From a character outside ASCII it makes no ASCII letter but [k]
    (from the Kelvin sign) and an [i] that a combining dot follows, so
    that looking up png, jpg, jpeg, webp or gif is not affected. *)
Fixpoint toLowerCase (s : string) : string :=
  match s with
  | EmptyString => EmptyString
  | String c r => String (lower_ascii c) (toLowerCase r)
  end.

(** [s.slice(1)]. *)
Definition slice1 (s : string) : string :=
  match s with
  | EmptyString => EmptyString
  | String _ r => r
  end.

(** [String(n)] for a non-negative integer. *)
Definition decimal (n : N) : string :=
  NilZero.string_of_uint (N.to_uint n).

Fixpoint join (sep : string) (l : list string) : string :=
  match l with
  | [] => ""
  | [x] => x
  | x :: r => x ++ sep ++ join sep r
  end.

(** The abstract operation [ToString] on the values above, where it
    returns; [stringifies] below tells where it does. *)
Fixpoint ToString (v : value) : string :=
  match v with
  | Undefined => "undefined"
  | Null => "null"
  | Bool true => "true"
  | Bool false => "false"
  | Num n => n
  | Str s => s
  | Arr elems =>
      join ","
        (map (fun e => match e with
                       | Undefined | Null => ""
                       | _ => ToString e
                       end) elems)
  | Obj _ => "[object Object]"
  end.

(** ** Properties *)

Fixpoint assoc {A : Type} (key : string) (l : list (string * A)) : option A :=
  match l with
  | [] => None
  | (k, a) :: r => if String.eqb k key then Some a else assoc key r
  end.

(** [ToString v] returns, rather than throwing a [TypeError].  An
    object is converted through its [toString]: the one of
    [Object.prototype], unless the object has an own property of that
    name, which in a value read from JSON is no function; then
    [valueOf] gives no primitive either and the conversion throws.  An
    array is converted through [join], which converts every element
    other than [null] and [undefined]. *)
Fixpoint stringifies (v : value) : bool :=
  match v with
  | Arr elems =>
      forallb (fun e => stringifies e) elems
  | Obj fields =>
      match assoc "toString" fields with
      | Some _ => false
      | None => true
      end
  | _ => true
  end.

(** [v.key] for a key that no built-in prototype defines and that is
    neither an index nor [length]: the sources read [code], [message],
    [request_id] and [details], callers of [me] read the fields of
    [AccountInfo].  Reading a property of [null] or [undefined] is a
    [TypeError]. *)
Definition get (v : value) (key : string) : completion value :=
  match v with
  | Undefined | Null => Throw ExTypeError
  | Obj fields =>
      match assoc key fields with
      | Some x => Normal x
      | None => Normal Undefined
      end
  | _ => Normal Undefined
  end.

(** The properties every object literal inherits from
    [Object.prototype] (ECMA-262, with its Annex B). *)
Definition Object_prototype_keys : list string :=
  [ "constructor"; "hasOwnProperty"; "isPrototypeOf";
    "propertyIsEnumerable"; "toLocaleString"; "toString"; "valueOf";
    "__proto__"; "__defineGetter__"; "__defineSetter__";
    "__lookupGetter__"; "__lookupSetter__" ].

Definition mem (key : string) (l : list string) : bool :=
  existsb (String.eqb key) l.

(** The outcome of [literal[key]] for an object literal whose own
    properties are [own]. *)
Inductive Lookup (A : Type) : Type :=
| Own (a : A)
| Inherited (key : string)   (* the value of [Object.prototype[key]] *)
| Missing.                   (* [undefined] *)
Arguments Own {A} a.
Arguments Inherited {A} key.
Arguments Missing {A}.

Definition lookup {A : Type} (own : list (string * A)) (key : string)
  : Lookup A :=
  match assoc key own with
  | Some a => Own a
  | None => if mem key Object_prototype_keys then Inherited key else Missing
  end.

(** ** Blobs *)

(** A [Blob]; one that has a name is a [File]. *)
Record Blob : Type := mkBlob {
  blob_bytes : list byte;
  blob_type : string;
  blob_name : option string
}.

Definition printable (c : ascii) : bool :=
  let n := N_of_ascii c in (32 <=? n)%N && (n <=? 126)%N.

Fixpoint all_printable (s : string) : bool :=
  match s with
  | EmptyString => true
  | String c r => printable c && all_printable r
  end.

(** [new Blob([bytes], { type })]: the File API keeps a type made of
    characters U+0020..U+007E, in lower case, and replaces any other
    by the empty string. *)
Definition new_Blob (bytes : list byte) (type : string) : Blob :=
  {| blob_bytes := bytes;
     blob_type := if all_printable type then toLowerCase type else "";
     blob_name := None |}.

End Js.

Import Js.

Declare Scope completion_scope.
Delimit Scope completion_scope with completion.
Notation "x <- c ;; k" := (bind c (fun x => k))
  (at level 61, c at next level, right associativity) : completion_scope.
Open Scope completion_scope.

(* ================================================================== *)
(** * The host the SDK runs on *)
(* ================================================================== *)

(** What the sources obtain from their surroundings rather than define:
    the globals they test for, Node's [fs] and [path] modules, the
    rendering of built-in objects, [parseInt] and the timer. *)
Record Host : Type := mkHost {
  (** [typeof process !== 'undefined' && process.versions?.node] *)
  isNode : bool;
  (** [typeof File !== 'undefined'] *)
  File_defined : bool;
  (** [fs.readFile(path)] *)
  readFile : string -> completion (list byte);
  (** [path.extname(path)] *)
  extname : string -> string;
  (** [String(Object.prototype[key])] for a key of [Object.prototype] *)
  inherited_to_string : string -> string;
  (** [parseInt(s, 10)] *)
  parseInt10 : string -> number;
  (** the delay, in milliseconds, after which a timer requested with
      [setTimeout(f, ms)] fires *)
  timer_delay : N -> N
}.

(* ================================================================== *)
(** * types.ts *)
(* ================================================================== *)

Module Types.

(** [timeout] is a whole number of milliseconds; the other numbers
    JavaScript has are left out. *)
Record PoofOptions : Type := mkPoofOptions {
  apiKey : string;
  baseUrl : option string;
  timeout : option N
}.

Inductive ImageFormat : Type := png | jpg | webp.
Inductive Channels : Type := rgba | rgb.
Inductive ImageSize : Type := full | preview | small | medium | large.

(** The string each member of the three unions is at run time. *)
Definition ImageFormat_string (f : ImageFormat) : string :=
  match f with png => "png" | jpg => "jpg" | webp => "webp" end.

Definition Channels_string (c : Channels) : string :=
  match c with rgba => "rgba" | rgb => "rgb" end.

Definition ImageSize_string (s : ImageSize) : string :=
  match s with
  | full => "full" | preview => "preview" | small => "small"
  | medium => "medium" | large => "large"
  end.

(** Every field is optional: [None] is a field that is absent (or
    [undefined]). *)
Record RemoveBackgroundOptions : Type := mkRemoveBackgroundOptions {
  format : option ImageFormat;
  channels : option Channels;
  bgColor : option string;
  size : option ImageSize;
  crop : option bool
}.

Record ProcessingMetadata : Type := mkProcessingMetadata {
  requestId : string;
  processingTimeMs : number;
  width : number;
  height : number;
  contentType : string
}.

Record RemoveBackgroundResult : Type := mkRemoveBackgroundResult {
  data : list byte;
  metadata : ProcessingMetadata
}.

(** [typeof v] for a value that is none of the members of [ImageInput]. *)
Inductive JsType : Type :=
| TUndefined | TObject | TBoolean | TNumber | TBigint | TSymbol | TFunction.

Definition typeof_other (t : JsType) : string :=
  match t with
  | TUndefined => "undefined" | TObject => "object" | TBoolean => "boolean"
  | TNumber => "number" | TBigint => "bigint" | TSymbol => "symbol"
  | TFunction => "function"
  end.

(** The values [toBlob] can be called with at run time: the members of
    [File | Blob | ArrayBuffer | Buffer | Uint8Array | string], and,
    the type being erased, anything else. *)
Inductive ImageInput : Type :=
| InBlob (b : Blob)                  (* a Blob; a File when it has a name *)
| InArrayBuffer (bytes : list byte)
| InUint8Array (bytes : list byte)
| InBuffer (bytes : list byte)       (* a Node.js Buffer *)
| InString (path : string)
| InOther (t : JsType).              (* [null], a number, a plain object... *)

End Types.

(* ================================================================== *)
(** * errors.ts *)
(* ================================================================== *)

Module Errors.

(** [new C(message, code, { status, requestId, details })] for a class
    [C] of the hierarchy.  [Error]'s constructor converts a message
    other than [undefined] to a string, and leaves the inherited empty
    message otherwise. *)
Definition new_PoofError (C : ErrorClass) (message code : value)
    (status : option N) (requestId details : value) : PoofError :=
  {| cls := C;
     message := match message with Undefined => "" | m => ToString m end;
     code := code;
     status := status;
     requestId := requestId;
     details := details |}.

(** The own properties of the object literal [ERROR_MAP]. *)
Definition ERROR_MAP : list (string * ErrorClass) :=
  [ ("authentication_error", AuthenticationErrorC);
    ("permission_denied", PermissionErrorC);
    ("payment_required", PaymentRequiredErrorC);
    ("rate_limit_exceeded", RateLimitErrorC);
    ("validation_error", ValidationErrorC);
    ("missing_image", ValidationErrorC);
    ("image_too_large", ValidationErrorC);
    ("upstream_error", ServerErrorC);
    ("internal_server_error", ServerErrorC) ].

(** [PoofError.fromResponse(response, status)]: the object it returns,
    or what it throws.

    [ERROR_MAP[response.code]] is a property look-up in an object
    literal: the code is converted to a property key, which throws for
    a code that does not convert to a string, and a key of
    [Object.prototype] finds the inherited property, which is truthy,
    so that [|| PoofError] does not apply.
    [Object.prototype.constructor] is [Object], and [new Object(m, ...)]
    is the wrapper object of [m]; the other inherited properties are
    not constructors, and [new] on them is a [TypeError].  The
    constructors of the hierarchy pass the message to [Error], which
    converts it to a string. *)
Definition fromResponse (response : value) (status : N) : completion exn :=
  code <- get response "code";;
  message <- get response "message";;
  request_id <- get response "request_id";;
  details <- get response "details";;
  if negb (stringifies code) then Throw ExTypeError
  else
    let construct (ErrorClass : ErrorClass) :=
      if stringifies message
      then Normal (ExPoof (new_PoofError ErrorClass message code
                             (Some status) request_id details))
      else Throw ExTypeError in
    match lookup ERROR_MAP (ToString code) with
    | Own ErrorClass => construct ErrorClass
    | Missing => construct PoofErrorC
    | Inherited key =>
        if String.eqb key "constructor"
        then Normal (ExObject message)
        else Throw ExTypeError
    end.

End Errors.

(* ================================================================== *)
(** * utils.ts *)
(* ================================================================== *)

Module Utils.
Import Types.

(** [buffer[i] === b]; past the end [buffer[i]] is [undefined], which
    is equal to no byte. *)
Definition byte_is (buffer : list byte) (i : nat) (b : byte) : bool :=
  match nth_error buffer i with
  | Some x => Byte.eqb x b
  | None => false
  end.

Definition detectMimeType (buffer : list byte) : string :=
  let gif_or_default :=
    if byte_is buffer 0 x47 && byte_is buffer 1 x49 && byte_is buffer 2 x46
    then "image/gif"
    else "application/octet-stream" in
  if byte_is buffer 0 x89 && byte_is buffer 1 x50 && byte_is buffer 2 x4e
     && byte_is buffer 3 x47
  then "image/png"
  else if byte_is buffer 0 xff && byte_is buffer 1 xd8 && byte_is buffer 2 xff
  then "image/jpeg"
  else if byte_is buffer 0 x52 && byte_is buffer 1 x49 && byte_is buffer 2 x46
          && byte_is buffer 3 x46
  then
    if byte_is buffer 8 x57 && byte_is buffer 9 x45 && byte_is buffer 10 x42
       && byte_is buffer 11 x50
    then "image/webp"
    else gif_or_default
  else gif_or_default.

(** [map[mimeType] || 'bin'], as the string a template literal makes
    of it. *)
Definition getExtension (h : Host) (mimeType : string) : string :=
  let map := [ ("image/png", "png"); ("image/jpeg", "jpg");
               ("image/webp", "webp"); ("image/gif", "gif") ] in
  match lookup map mimeType with
  | Own ext => ext
  | Inherited key => inherited_to_string h key
  | Missing => "bin"
  end.

Definition mimeFromExt : list (string * string) :=
  [ ("png", "image/png"); ("jpg", "image/jpeg"); ("jpeg", "image/jpeg");
    ("webp", "image/webp"); ("gif", "image/gif") ].

Definition toBlob (h : Host) (input : ImageInput) : completion Blob :=
  match input with
  | InBlob b => Normal b
  | InArrayBuffer bytes =>
      let mimeType := detectMimeType bytes in
      Normal (new_Blob bytes mimeType)
  | InUint8Array bytes
  | InBuffer bytes =>
      (* a Buffer is a Uint8Array: the second test holds before the
         third one is reached *)
      let mimeType := detectMimeType bytes in
      Normal (new_Blob bytes mimeType)
  | InString path =>
      if negb (isNode h)
      then Throw (ExError "File paths are only supported in Node.js. Use a Blob or File in the browser.")
      else
        buffer <- readFile h path;;
        let mimeType := detectMimeType buffer in
        let ext := slice1 (toLowerCase (extname h path)) in
        let finalMimeType :=
          match lookup mimeFromExt ext with
          | Own m => m
          | Inherited key => inherited_to_string h key
          | Missing => mimeType
          end in
        Normal (new_Blob buffer finalMimeType)
  | InOther t =>
      Throw (ExError ("Unsupported input type: " ++ typeof_other t))
  end.

Definition is_separator (c : ascii) : bool :=
  Ascii.eqb c "/" || Ascii.eqb c "\".

(** [input.split(/[/\\]/)] *)
Fixpoint split (input : string) : list string :=
  match input with
  | EmptyString => [""]
  | String c r =>
      if is_separator c then "" :: split r
      else match split r with
           | part :: parts => String c part :: parts
           | [] => [String c ""]
           end
  end.

Definition getFilename (h : Host) (input : ImageInput) (mimeType : string)
  : string :=
  match input with
  | InBlob {| blob_name := Some name |} =>
      if File_defined h then name
      else "image." ++ getExtension h mimeType
  | InString path =>
      if isNode h then
        let parts := split path in
        match last parts "" with
        | "" => "image." ++ getExtension h mimeType
        | part => part
        end
      else "image." ++ getExtension h mimeType
  | _ => "image." ++ getExtension h mimeType
  end.

End Utils.

(* ================================================================== *)
(** * client.ts *)
(* ================================================================== *)

Module Client.
Import Types.

Definition DEFAULT_BASE_URL : string := "https://api.poof.bg/v1".
Definition DEFAULT_TIMEOUT : N := 60000.

(** ** The transport *)

Inductive FormValue : Type :=
| FormFile (blob : Blob) (filename : string)
| FormString (s : string).

(** A [FormData]: its entries, in the order of the [append]s. *)
Definition FormData := list (string * FormValue).

Definition append (formData : FormData) (name : string) (v : FormValue)
  : FormData :=
  (formData ++ [(name, v)])%list.

(** A [Headers] object, for names and values the platform takes as
    they are and names that differ: the names in lower case, in the
    order they were given. *)
Definition Headers := list (string * string).

Definition new_Headers (init : list (string * string)) : Headers :=
  map (fun kv => (toLowerCase (fst kv), snd kv)) init.

Definition Headers_set (hs : Headers) (name v : string) : Headers :=
  (filter (fun kv => negb (String.eqb (fst kv) (toLowerCase name))) hs
   ++ [(toLowerCase name, v)])%list.

(** The [RequestInit] the client passes to its [fetch]. *)
Record RequestInit : Type := mkRequestInit {
  init_method : string;
  init_headers : list (string * string);
  init_body : option FormData
}.

(** What reaches the global [fetch]. *)
Record Request : Type := mkRequest {
  req_url : string;
  req_method : string;
  req_headers : Headers;
  req_body : option FormData
}.

Record Response : Type := mkResponse {
  r_ok : bool;
  r_status : N;
  r_statusText : string;
  (** [response.headers.get(name)]; [None] is [null] *)
  r_headers_get : string -> option string;
  (** [response.arrayBuffer()] *)
  r_arrayBuffer : list byte;
  (** [response.json()]; [None] when the body is not JSON and the
      promise rejects *)
  r_json : option value
}.

(** What the network does with a request when nobody aborts it: after
    [settles_after] milliseconds ([None]: never) the promise of the
    global [fetch] settles with [settles_with]. *)
Record Exchange : Type := mkExchange {
  settles_after : option N;
  settles_with : completion Response
}.

Definition Network := Request -> Exchange.

(** The response has arrived when the timer fires. *)
Definition arrives_within (delay : N) (x : Exchange) : bool :=
  match settles_after x with
  | Some t => (t <=? delay)%N
  | None => false
  end.

(** The global [fetch] with the signal of a controller that a timer
    aborts after [delay] milliseconds: an exchange that has not settled
    by then rejects with an [AbortError]. *)
Definition global_fetch (net : Network) (delay : N) (request : Request)
  : completion Response :=
  let x := net request in
  if arrives_within delay x then settles_with x else Throw ExAbortError.

(** ** The class [Poof] *)

Record Poof : Type := mkPoof {
  this_apiKey : string;
  this_baseUrl : string;
  this_timeout : N
}.

(** [s.replace(/\/$/, '')] *)
Fixpoint strip_trailing_slash (s : string) : string :=
  match s with
  | EmptyString => EmptyString
  | String c EmptyString => if Ascii.eqb c "/" then EmptyString else s
  | String c r => String c (strip_trailing_slash r)
  end.

Definition constructor (options : PoofOptions) : completion Poof :=
  if String.eqb (apiKey options) ""
  then Throw (ExError "API key is required")
  else
    Normal
      {| this_apiKey := apiKey options;
         this_baseUrl :=
           match baseUrl options with
           | Some u =>
               match strip_trailing_slash u with
               | "" => DEFAULT_BASE_URL
               | u' => u'
               end
           | None => DEFAULT_BASE_URL
           end;
         this_timeout :=
           match timeout options with
           | Some 0%N | None => DEFAULT_TIMEOUT
           | Some t => t
           end |}.

(** The request [this.fetch(url, init)] hands to the global [fetch]:
    [init] with the credential added to its headers. *)
Definition outgoing (this : Poof) (url : string) (init : RequestInit)
  : Request :=
  let headers := new_Headers (init_headers init) in
  let headers := Headers_set headers "x-api-key" (this_apiKey this) in
  {| req_url := url;
     req_method := init_method init;
     req_headers := headers;
     req_body := init_body init |}.

(** [this.fetch(url, init)] *)
Definition fetch (h : Host) (net : Network) (this : Poof)
    (url : string) (init : RequestInit) : completion Response :=
  match global_fetch net (timer_delay h (this_timeout this))
          (outgoing this url init) with
  | Normal response => Normal response
  | Throw ExAbortError =>
      Throw (ExPoof (Errors.new_PoofError PoofErrorC
                       (Str "Request timeout") (Str "timeout")
                       (Some 408%N) Undefined Undefined))
  | Throw error => Throw error
  end.

(** [this.handleError(response)]: it never returns. *)
Definition handleError (response : Response) : completion Empty_set :=
  match r_json response with
  | None =>
      Throw (ExPoof (Errors.new_PoofError PoofErrorC
                       (Str ("HTTP " ++ decimal (r_status response) ++ ": "
                             ++ r_statusText response))
                       (Str "unknown_error")
                       (Some (r_status response)) Undefined Undefined))
  | Some errorData =>
      e <- Errors.fromResponse errorData (r_status response);;
      Throw e
  end.

(** [if (!response.ok) await this.handleError(response)] *)
Definition check_ok (response : Response) : completion unit :=
  if negb (r_ok response)
  then _ <- handleError response;; Normal tt
  else Normal tt.

(** [a || b] on a header value: [null] and the empty string are falsy. *)
Definition or_else (a : option string) (b : string) : string :=
  match a with
  | None | Some "" => b
  | Some s => s
  end.

(** The first half of [removeBackground]: the form it builds and the
    request it hands to [this.fetch]. *)
Definition removeBackground_form (h : Host) (input : ImageInput)
    (options : RemoveBackgroundOptions) : completion FormData :=
  blob <- Utils.toBlob h input;;
  let filename := Utils.getFilename h input (blob_type blob) in
  let formData := append [] "image_file" (FormFile blob filename) in
  let formData :=
    match format options with
    | Some f => append formData "format" (FormString (ImageFormat_string f))
    | None => formData
    end in
  let formData :=
    match channels options with
    | Some c => append formData "channels" (FormString (Channels_string c))
    | None => formData
    end in
  let formData :=
    match bgColor options with
    | None | Some "" => formData
    | Some color => append formData "bg_color" (FormString color)
    end in
  let formData :=
    match size options with
    | Some s => append formData "size" (FormString (ImageSize_string s))
    | None => formData
    end in
  let formData :=
    match crop options with
    | Some b => append formData "crop" (FormString (ToString (Bool b)))
    | None => formData
    end in
  Normal formData.

(** The second argument of the two calls of [this.fetch]. *)
Definition remove_init (formData : FormData) : RequestInit :=
  {| init_method := "POST";
     init_headers := [];
     init_body := Some formData |}.

Definition me_init : RequestInit :=
  {| init_method := "GET";
     init_headers := [("Accept", "application/json")];
     init_body := None |}.

Definition removeBackground (h : Host) (net : Network) (this : Poof)
    (input : ImageInput) (options : RemoveBackgroundOptions)
  : completion RemoveBackgroundResult :=
  formData <- removeBackground_form h input options;;
  response <- fetch h net this (this_baseUrl this ++ "/remove")
                (remove_init formData);;
  _ <- check_ok response;;
  let data := r_arrayBuffer response in
  let header := r_headers_get response in
  Normal
    {| data := data;
       metadata :=
         {| requestId := or_else (header "X-Request-ID") "";
            processingTimeMs :=
              parseInt10 h (or_else (header "X-Processing-Time-Ms") "0");
            width := parseInt10 h (or_else (header "X-Image-Width") "0");
            height := parseInt10 h (or_else (header "X-Image-Height") "0");
            contentType := or_else (header "Content-Type") "image/png" |} |}.

(** [me()]: the promise of [response.json()] is returned as it is. *)
Definition me (h : Host) (net : Network) (this : Poof) : completion value :=
  response <- fetch h net this (this_baseUrl this ++ "/me") me_init;;
  _ <- check_ok response;;
  match r_json response with
  | Some body => Normal body
  | None => Throw ExSyntaxError
  end.

(** The requests the two operations send. *)
Definition remove_request (this : Poof) (formData : FormData) : Request :=
  outgoing this (this_baseUrl this ++ "/remove") (remove_init formData).

Definition me_request (this : Poof) : Request :=
  outgoing this (this_baseUrl this ++ "/me") me_init.

End Client.

(* ================================================================== *)
(** * Some hosts *)
(* ================================================================== *)

(** Concrete hosts, on which the statements below are exercised. *)
Module Hosts.

(** [path.extname] of Node's POSIX flavour: the part of the last path
    segment from its last dot on, unless that dot starts the segment
    or the segment is [..]. *)
Fixpoint drop_while (p : ascii -> bool) (l : list ascii) : list ascii :=
  match l with
  | c :: r => if p c then drop_while p r else l
  | [] => []
  end.

Fixpoint take_while (p : ascii -> bool) (l : list ascii) : list ascii :=
  match l with
  | c :: r => if p c then c :: take_while p r else []
  | [] => []
  end.

Definition is_slash (c : ascii) : bool := Ascii.eqb c "/".
Definition is_dot (c : ascii) : bool := Ascii.eqb c ".".

Definition posix_extname (path : string) : string :=
  let backwards := drop_while is_slash (rev (list_ascii_of_string path)) in
  let segment := take_while (fun c => negb (is_slash c)) backwards in
  let after_dot := take_while (fun c => negb (is_dot c)) segment in
  match drop_while (fun c => negb (is_dot c)) segment with
  | [] => ""                              (* no dot *)
  | [_] => ""                             (* the dot starts the segment *)
  | [_; d] =>
      if is_dot d && Nat.eqb (length after_dot) 0 then ""   (* [..] *)
      else string_of_list_ascii ("."%char :: rev after_dot)
  | _ => string_of_list_ascii ("."%char :: rev after_dot)
  end.

(** [String(Object.prototype[key])] as V8 prints it. *)
Definition v8_inherited_to_string (key : string) : string :=
  if String.eqb key "__proto__" then "[object Object]"
  else if String.eqb key "constructor"
  then "function Object() { [native code] }"
  else "function " ++ key ++ "() { [native code] }".

Definition is_digit (c : ascii) : bool :=
  let n := N_of_ascii c in (48 <=? n)%N && (n <=? 57)%N.

Fixpoint digits_value (acc : N) (s : string) : N :=
  match s with
  | String c r =>
      if is_digit c then digits_value (10 * acc + (N_of_ascii c - 48)) r
      else acc
  | EmptyString => acc
  end.

(** The ASCII white space [parseInt] skips: tab, line feed, vertical
    tab, form feed, carriage return, space. *)
Definition is_white (c : ascii) : bool :=
  let n := N_of_ascii c in ((9 <=? n) && (n <=? 13))%N || (n =? 32)%N.

Fixpoint skip_white (s : string) : string :=
  match s with
  | String c r => if is_white c then skip_white r else s
  | EmptyString => EmptyString
  end.

Definition unsigned_parseInt10 (s : string) : option N :=
  match s with
  | String c _ => if is_digit c then Some (digits_value 0 s) else None
  | EmptyString => None
  end.

(** [parseInt(s, 10)]: white space, a sign, a run of digits; [NaN]
    without a digit.  The rendering is that of the integer, which is
    the one of the double [parseInt] returns for a run of digits below
    2^53. *)
Definition digits_parseInt10 (s : string) : number :=
  match skip_white s with
  | String "-" r =>
      match unsigned_parseInt10 r with
      | Some 0%N => "0"
      | Some n => "-" ++ decimal n
      | None => "NaN"
      end
  | String "+" r =>
      match unsigned_parseInt10 r with
      | Some n => decimal n
      | None => "NaN"
      end
  | t =>
      match unsigned_parseInt10 t with
      | Some n => decimal n
      | None => "NaN"
      end
  end.

(** Node.js sets a delay below 1 or above 2^31 - 1 to 1. *)
Definition node_timer_delay (ms : N) : N :=
  if ((ms <? 1) || (2147483647 <? ms))%N then 1%N else ms.

(** A browser converts the delay to a signed 32-bit integer and takes a
    negative one for 0. *)
Definition browser_timer_delay (ms : N) : N :=
  let wrapped := (ms mod 4294967296)%N in
  if (2147483648 <=? wrapped)%N then 0%N else wrapped.

(** A PNG signature followed by a few bytes, and a JPEG one. *)
Definition png_bytes : list byte :=
  [x89; x50; x4e; x47; x0d; x0a; x1a; x0a; x00; x00; x00; x0d].
Definition jpeg_bytes : list byte :=
  [xff; xd8; xff; xe0; x00; x10; x4a; x46; x49; x46].

(** A file system with two files, the second one a JPEG image under a
    name that ends in [.png]. *)
Definition two_files (path : string) : completion (list byte) :=
  if String.eqb path "/tmp/cat.png" then Normal png_bytes
  else if String.eqb path "/tmp/dog.PNG" then Normal jpeg_bytes
  else Throw (ExFs "ENOENT").

(** Node.js 18, which has no global [File]. *)
Definition node18 : Host :=
  {| isNode := true;
     File_defined := false;
     readFile := two_files;
     extname := posix_extname;
     inherited_to_string := v8_inherited_to_string;
     parseInt10 := digits_parseInt10;
     timer_delay := node_timer_delay |}.

(** Node.js 20, which has one. *)
Definition node20 : Host :=
  {| isNode := true;
     File_defined := true;
     readFile := two_files;
     extname := posix_extname;
     inherited_to_string := v8_inherited_to_string;
     parseInt10 := digits_parseInt10;
     timer_delay := node_timer_delay |}.

(** A browser: no [process], no file system. *)
Definition browser : Host :=
  {| isNode := false;
     File_defined := true;
     readFile := fun _ => Throw (ExFs "unavailable");
     extname := fun _ => "";
     inherited_to_string := v8_inherited_to_string;
     parseInt10 := digits_parseInt10;
     timer_delay := browser_timer_delay |}.

(** A File called [portrait.png]. *)
Definition portrait : Blob :=
  {| blob_bytes := png_bytes;
     blob_type := "image/png";
     blob_name := Some "portrait.png" |}.

Definition no_headers (name : string) : option string := None.

(** A network whose every exchange settles after [ms] milliseconds with
    [response]. *)
Definition answers (ms : N) (response : Client.Response) : Client.Network :=
  fun _ => {| Client.settles_after := Some ms;
              Client.settles_with := Normal response |}.

(** A network that never answers. *)
Definition silent : Client.Network :=
  fun _ => {| Client.settles_after := None;
              Client.settles_with := Throw (ExTransport "unreachable") |}.

(** A failing response whose body is not JSON. *)
Definition html_500 : Client.Response :=
  {| Client.r_ok := false;
     Client.r_status := 500;
     Client.r_statusText := "Internal Server Error";
     Client.r_headers_get := no_headers;
     Client.r_arrayBuffer := [];
     Client.r_json := None |}.

(** A successful response with the JSON body [body]. *)
Definition ok_json (body : value) : Client.Response :=
  {| Client.r_ok := true;
     Client.r_status := 200;
     Client.r_statusText := "OK";
     Client.r_headers_get := no_headers;
     Client.r_arrayBuffer := [];
     Client.r_json := Some body |}.

(** An account, under the names of the fields of [AccountInfo] and
    under names with underscores. *)
Definition account_body : value :=
  Obj [ ("organizationId", Str "o1"); ("plan", Str "pro");
        ("maxCredits", Num "1000"); ("usedCredits", Num "200");
        ("autoRechargeThreshold", Null) ].

Definition snake_account_body : value :=
  Obj [ ("organization_id", Str "o1"); ("plan", Str "pro");
        ("max_credits", Num "1000"); ("used_credits", Num "200");
        ("auto_recharge_threshold", Null) ].

Definition no_options : Types.RemoveBackgroundOptions :=
  {| Types.format := None; Types.channels := None; Types.bgColor := None;
     Types.size := None; Types.crop := None |}.

Definition webp_cropped : Types.RemoveBackgroundOptions :=
  {| Types.format := Some Types.webp; Types.channels := None;
     Types.bgColor := None; Types.size := None; Types.crop := Some true |}.

Definition empty_bgColor : Types.RemoveBackgroundOptions :=
  {| Types.format := None; Types.channels := None;
     Types.bgColor := Some ""; Types.size := None; Types.crop := None |}.

(** The part of a PNG image in a form. *)
Definition png_part : string * Client.FormValue :=
  ("image_file",
   Client.FormFile (mkBlob png_bytes "image/png" None) "image.png").

Definition a_client : Client.Poof :=
  {| Client.this_apiKey := "key";
     Client.this_baseUrl := Client.DEFAULT_BASE_URL;
     Client.this_timeout := Client.DEFAULT_TIMEOUT |}.

End Hosts.

(* ================================================================== *)
(** * The specification's own vocabulary *)
(* ================================================================== *)

Module Spec.

(** [l] begins with [signature]. *)
Fixpoint starts_with (l signature : list byte) : bool :=
  match signature, l with
  | [], _ => true
  | x :: signature', y :: l' => Byte.eqb y x && starts_with l' signature'
  | _ :: _, [] => false
  end.

(** [signature] is found in [buffer] at [offset]. *)
Definition has_bytes (buffer : list byte) (offset : nat)
    (signature : list byte) : bool :=
  starts_with (skipn offset buffer) signature.

Definition PNG : list byte := [x89; x50; x4e; x47].
Definition JPEG : list byte := [xff; xd8; xff].
Definition RIFF : list byte := [x52; x49; x46; x46].
Definition WEBP : list byte := [x57; x45; x42; x50].
Definition GIF : list byte := [x47; x49; x46].

(** The content type of a prefix of at most 12 bytes, signature by
    signature in the order PNG, JPEG, WEBP, GIF. *)
Definition infer_content_type (prefix : list byte) : string :=
  if has_bytes prefix 0 PNG then "image/png"
  else if has_bytes prefix 0 JPEG then "image/jpeg"
  else if has_bytes prefix 0 RIFF && has_bytes prefix 8 WEBP then "image/webp"
  else if has_bytes prefix 0 GIF then "image/gif"
  else "application/octet-stream".

Definition content_types : list string :=
  [ "image/png"; "image/jpeg"; "image/webp"; "image/gif";
    "application/octet-stream" ].

(** The messages of the two failures of normalisation. *)
Definition unsupported_message (t : Types.JsType) : string :=
  "Unsupported input type: " ++ Types.typeof_other t.

Definition no_file_system_message : string :=
  "File paths are only supported in Node.js. Use a Blob or File in the browser.".

(** The extension map. *)
Definition extension_content_type (ext : string) : option string :=
  if String.eqb ext "png" then Some "image/png"
  else if String.eqb ext "jpg" || String.eqb ext "jpeg" then Some "image/jpeg"
  else if String.eqb ext "webp" then Some "image/webp"
  else if String.eqb ext "gif" then Some "image/gif"
  else None.

(** The extension of a path, without its dot and in lower case. *)
Definition extension (h : Host) (path : string) : string :=
  slice1 (toLowerCase (extname h path)).

(** The value of the form field [name], if the form has it. *)
Definition field (formData : Client.FormData) (name : string)
  : option Client.FormValue :=
  assoc name formData.

Definition field_names (formData : Client.FormData) : list string :=
  map fst formData.


(** The error of a failing response whose body is not JSON. *)
Definition unknown_error (status : N) (statusText : string) : PoofError :=
  {| cls := PoofErrorC;
     message := "HTTP " ++ decimal status ++ ": " ++ statusText;
     code := Str "unknown_error";
     status := Some status;
     requestId := Undefined;
     details := Undefined |}.

(** An [ApiErrorPayload], and the JSON value it is on the wire. *)
Record ApiErrorPayload : Type := mkApiErrorPayload {
  p_code : string;
  p_message : string;
  p_details : option string;
  p_request_id : string
}.

Definition payload_value (p : ApiErrorPayload) : value :=
  Obj ([ ("code", Str (p_code p)); ("message", Str (p_message p)) ]
       ++ match p_details p with
          | Some d => [ ("details", Str d) ]
          | None => []
          end
       ++ [ ("request_id", Str (p_request_id p)) ])%list.

(** The documented kind of each enumerated code; the generic base kind
    for any other. *)
Definition enumerated_codes : list string :=
  [ "authentication_error"; "permission_denied"; "payment_required";
    "rate_limit_exceeded"; "validation_error"; "missing_image";
    "image_too_large"; "upstream_error"; "internal_server_error" ].

Definition documented_kind (code : string) : ErrorClass :=
  if String.eqb code "authentication_error" then AuthenticationErrorC
  else if String.eqb code "permission_denied" then PermissionErrorC
  else if String.eqb code "payment_required" then PaymentRequiredErrorC
  else if String.eqb code "rate_limit_exceeded" then RateLimitErrorC
  else if String.eqb code "validation_error"
          || String.eqb code "missing_image"
          || String.eqb code "image_too_large" then ValidationErrorC
  else if String.eqb code "upstream_error"
          || String.eqb code "internal_server_error" then ServerErrorC
  else PoofErrorC.

(** The error [classify] is documented to return. *)
Definition classified (p : ApiErrorPayload) (status : N) : PoofError :=
  {| cls := documented_kind (p_code p);
     message := p_message p;
     code := Str (p_code p);
     status := Some status;
     requestId := Str (p_request_id p);
     details := match p_details p with
                | Some d => Str d
                | None => Undefined
                end |}.

(** The network answers [request] with [response] before the timer of
    the call fires. *)
Definition delivers (h : Host) (net : Client.Network) (this : Client.Poof)
    (request : Client.Request) (response : Client.Response) : Prop :=
  Client.arrives_within (timer_delay h (Client.this_timeout this))
    (net request) = true
  /\ Client.settles_with (net request) = Normal response.


Definition option_names : list string :=
  [ "image_file"; "format"; "channels"; "bg_color"; "size"; "crop" ].

(** A form field whose value is the string [s]. *)
Definition sent (s : option string) : option Client.FormValue :=
  option_map Client.FormString s.

(** The payloads of a service that names its codes after properties of
    [Object.prototype]. *)
Definition constructor_payload : ApiErrorPayload :=
  {| p_code := "constructor";
     p_message := "Not allowed";
     p_details := None;
     p_request_id := "req_1" |}.

Definition toString_payload : ApiErrorPayload :=
  {| p_code := "toString";
     p_message := "Not allowed";
     p_details := None;
     p_request_id := "req_2" |}.

End Spec.

(* ================================================================== *)
(** * Further vocabulary *)
(* ================================================================== *)

Module Terms.

(** [s] holds a slash or a backslash. *)
Fixpoint has_separator (s : string) : bool :=
  match s with
  | EmptyString => false
  | String c r => Utils.is_separator c || has_separator r
  end.

(** The number of slashes and backslashes of [s]. *)
Fixpoint separators (s : string) : nat :=
  match s with
  | EmptyString => 0
  | String c r => (if Utils.is_separator c then 1 else 0) + separators r
  end.

(** The number of headers called [name]. *)
Definition named (name : string) (hs : Client.Headers) : nat :=
  length (filter (fun kv => String.eqb (fst kv) name) hs).

(** The extension of the filename generated for a content type. *)
Definition generated_extension (type : string) : string :=
  if String.eqb type "image/png" then "png"
  else if String.eqb type "image/jpeg" then "jpg"
  else if String.eqb type "image/webp" then "webp"
  else if String.eqb type "image/gif" then "gif"
  else "bin".

(** [name] is the last segment of [path]: it holds no separator, and
    is the whole path or what follows a separator of it. *)
Definition last_segment (path name : string) : Prop :=
  has_separator name = false
  /\ (path = name
      \/ exists dir c,
           Utils.is_separator c = true /\ path = dir ++ String c name).

(** A header value the platform takes as it is: printable ASCII, with
    no space at either end (no CR, LF or NUL, nothing to strip). *)
Definition ends_with_space (v : string) : bool :=
  match rev (list_ascii_of_string v) with
  | c :: _ => Ascii.eqb c " "
  | [] => false
  end.

Definition starts_with_space (v : string) : bool :=
  match v with
  | String c _ => Ascii.eqb c " "
  | EmptyString => false
  end.

Definition header_value_ok (v : string) : bool :=
  all_printable v && negb (starts_with_space v) && negb (ends_with_space v).

(** A header name the platform accepts: a non-empty HTTP token. *)
Definition token_char (c : ascii) : bool :=
  let n := N_of_ascii c in
  ((48 <=? n) && (n <=? 57))%N || ((65 <=? n) && (n <=? 90))%N
  || ((97 <=? n) && (n <=? 122))%N
  || existsb (Ascii.eqb c)
       (list_ascii_of_string "!#$%&'*+-.^_`|~").

Fixpoint all_token (s : string) : bool :=
  match s with
  | EmptyString => true
  | String c r => token_char c && all_token r
  end.

Definition header_name_ok (name : string) : bool :=
  negb (String.eqb name "") && all_token name.

Definition headers_ok (init : Client.RequestInit) : bool :=
  forallb (fun kv => header_name_ok (fst kv) && header_value_ok (snd kv))
    (Client.init_headers init).

(** The filenames [getFilename] generates for detected content types. *)
Definition generated_names : list string :=
  [ "image.png"; "image.jpg"; "image.webp"; "image.gif"; "image.bin" ].

(** The metadata of a response without headers. *)
Definition default_metadata (h : Host) : Types.ProcessingMetadata :=
  {| Types.requestId := "";
     Types.processingTimeMs := parseInt10 h "0";
     Types.width := parseInt10 h "0";
     Types.height := parseInt10 h "0";
     Types.contentType := "image/png" |}.

(** A header is absent, or present and empty. *)
Definition blank (v : option string) : Prop := v = None \/ v = Some "".

(** A successful response to [removeBackground], with all its headers. *)
Definition processed (name : string) : option string :=
  if String.eqb name "X-Request-ID" then Some "req_9"
  else if String.eqb name "X-Processing-Time-Ms" then Some "42"
  else if String.eqb name "X-Image-Width" then Some "640"
  else if String.eqb name "X-Image-Height" then Some "480"
  else if String.eqb name "Content-Type" then Some "image/webp"
  else None.

Definition processed_response : Client.Response :=
  {| Client.r_ok := true;
     Client.r_status := 200;
     Client.r_statusText := "OK";
     Client.r_headers_get := processed;
     Client.r_arrayBuffer := Hosts.png_bytes;
     Client.r_json := None |}.

(** A failing response with the JSON body [body]. *)
Definition failed_json (status : N) (body : value) : Client.Response :=
  {| Client.r_ok := false;
     Client.r_status := status;
     Client.r_statusText := "";
     Client.r_headers_get := Hosts.no_headers;
     Client.r_arrayBuffer := [];
     Client.r_json := Some body |}.

Definition insufficient_credits : Spec.ApiErrorPayload :=
  {| Spec.p_code := "payment_required";
     Spec.p_message := "Insufficient credits";
     Spec.p_details := None;
     Spec.p_request_id := "r1" |}.

(** A network on which every exchange fails at once. *)
Definition unreachable : Client.Network :=
  fun _ => {| Client.settles_after := Some 3%N;
              Client.settles_with := Throw (ExTransport "ECONNREFUSED") |}.


End Terms.

(* ================================================================== *)
(** * Properties *)
(* ================================================================== *)

Import Types.

(** ** Signature detection *)

Section Detection.

Import Utils Spec.

Lemma byte_is_nth_error (buffer : list byte) (i : nat) (b : byte) :
  byte_is buffer i b = true <-> nth_error buffer i = Some b.
Proof.
  unfold byte_is. destruct (nth_error buffer i) as [x|].
  - split.
    + intros H. f_equal. apply Byte.byte_dec_bl. exact H.
    + intros [= ->]. apply Byte.byte_dec_lb. reflexivity.
  - split; discriminate.
Qed.

Lemma byte_is_out_of_range (buffer : list byte) (i : nat) (b : byte) :
  length buffer <= i -> byte_is buffer i b = false.
Proof.
  intros H. unfold byte_is.
  apply nth_error_None in H. rewrite H. reflexivity.
Qed.

Lemma byte_is_firstn (n : nat) (buffer : list byte) (i : nat) (b : byte) :
  i < n -> byte_is (firstn n buffer) i b = byte_is buffer i b.
Proof.
  intros H. unfold byte_is. rewrite nth_error_firstn.
  destruct (Nat.ltb_spec i n); [reflexivity | lia].
Qed.

Lemma has_bytes_nil (buffer : list byte) (offset : nat) :
  has_bytes buffer offset [] = true.
Proof. unfold has_bytes. destruct (skipn offset buffer); reflexivity. Qed.

Lemma has_bytes_cons (buffer : list byte) (offset : nat) (x : byte)
    (signature : list byte) :
  has_bytes buffer offset (x :: signature)
  = byte_is buffer offset x && has_bytes buffer (S offset) signature.
Proof.
  unfold has_bytes, byte_is. revert buffer.
  induction offset as [|offset IH]; intros [|y buffer]; simpl;
    try reflexivity.
  apply IH.
Qed.

Ltac case_bytes :=
  cbv zeta;
  repeat (match goal with
          | |- context [byte_is ?buffer ?i ?b] =>
              destruct (byte_is buffer i b)
          end; cbn [andb]).

Lemma detectMimeType_content_type (buffer : list byte) :
  In (detectMimeType buffer) content_types.
Proof.
  unfold detectMimeType, content_types. case_bytes; simpl; tauto.
Qed.

(** The [Blob] constructor leaves a detected type as it is. *)
Lemma new_Blob_detected (bytes buffer : list byte) :
  new_Blob bytes (detectMimeType buffer)
  = mkBlob bytes (detectMimeType buffer) None.
Proof.
  pose proof (detectMimeType_content_type buffer) as H.
  unfold content_types in H. simpl in H.
  destruct H as [H|[H|[H|[H|[H|[]]]]]]; rewrite <- H; reflexivity.
Qed.

Lemma detectMimeType_infer (buffer : list byte) :
  detectMimeType buffer = infer_content_type (firstn 12 buffer).
Proof.
  unfold infer_content_type, PNG, JPEG, RIFF, WEBP, GIF.
  rewrite !has_bytes_cons, !has_bytes_nil, !andb_true_r.
  rewrite !byte_is_firstn by lia.
  unfold detectMimeType. case_bytes; reflexivity.
Qed.

(** C4.  A byte buffer that declares no content type (an ArrayBuffer, a
    Uint8Array, a Buffer) is given the type its first 12 bytes have in
    the order PNG, JPEG, WEBP (RIFF at 0 and WEBP at 8), GIF, and
    application/octet-stream when no signature is found. *)
Theorem toBlob_infers_type_from_first_12_bytes (h : Host) (bytes : list byte) :
  detectMimeType bytes = infer_content_type (firstn 12 bytes)
  /\ toBlob h (InArrayBuffer bytes)
     = Normal (mkBlob bytes (infer_content_type (firstn 12 bytes)) None)
  /\ toBlob h (InUint8Array bytes)
     = Normal (mkBlob bytes (infer_content_type (firstn 12 bytes)) None)
  /\ toBlob h (InBuffer bytes)
     = Normal (mkBlob bytes (infer_content_type (firstn 12 bytes)) None).
Proof.
  pose proof (detectMimeType_infer bytes) as E.
  split; [exact E|].
  unfold toBlob. rewrite new_Blob_detected, E. auto.
Qed.

Example png_signature_detected :
  detectMimeType Hosts.png_bytes = "image/png".
Proof. reflexivity. Qed.

Example riff_without_webp_is_not_an_image :
  detectMimeType [x52; x49; x46; x46; x00; x00; x00; x00;
                  x57; x41; x56; x45] = "application/octet-stream".
Proof. reflexivity. Qed.

(** C10.  Detection is defined on every buffer: a position past the end
    compares unequal to every byte, the result is always one of the
    five content types, and a buffer too short for any signature to fit
    (fewer than 3 bytes, or fewer than 12 after a RIFF header) is
    application/octet-stream. *)
Theorem detectMimeType_total_on_short_buffers :
  (forall buffer i b, length buffer <= i -> byte_is buffer i b = false)
  /\ (forall buffer, In (detectMimeType buffer) content_types)
  /\ (forall buffer,
        length buffer < 3 ->
        detectMimeType buffer = "application/octet-stream")
  /\ (forall buffer,
        has_bytes buffer 0 RIFF = true -> length buffer < 12 ->
        detectMimeType buffer = "application/octet-stream")
  /\ detectMimeType [] = "application/octet-stream".
Proof.
  split; [exact byte_is_out_of_range|].
  split; [exact detectMimeType_content_type|].
  split; [|split; [|reflexivity]].
  - intros buffer H. unfold detectMimeType.
    rewrite !(byte_is_out_of_range buffer 2) by lia.
    rewrite !andb_false_r. reflexivity.
  - intros buffer R H. unfold RIFF in R.
    rewrite !has_bytes_cons, has_bytes_nil, andb_true_r in R.
    apply andb_prop in R as [R0 R]. apply andb_prop in R as [R1 R].
    apply andb_prop in R as [R2 R3].
    apply byte_is_nth_error in R0.
    unfold detectMimeType.
    rewrite !(byte_is_out_of_range buffer 11) by lia.
    assert (N0 : forall b, b <> x52 -> byte_is buffer 0 b = false).
    { intros b Hb. destruct (byte_is buffer 0 b) eqn:E; [|reflexivity].
      apply byte_is_nth_error in E. congruence. }
    rewrite (N0 x89), (N0 xff), (N0 x47) by discriminate.
    apply byte_is_nth_error in R0. rewrite R0, R1, R2, R3.
    rewrite !andb_false_r. reflexivity.
Qed.

Lemma detectMimeType_short_buffers_witness :
  detectMimeType [x47; x49] = "application/octet-stream"
  /\ detectMimeType [x52; x49; x46; x46; x00] = "application/octet-stream".
Proof.
  destruct detectMimeType_total_on_short_buffers as (_ & _ & S & R & _).
  split.
  - apply S. simpl. lia.
  - apply R; [reflexivity | simpl; lia].
Defined.

End Detection.

(** ** Normalising an input *)

Section Normalisation.

Import Utils Spec.

Lemma recognised_extension_is_own (ext type : string) :
  extension_content_type ext = Some type -> lookup mimeFromExt ext = Own type.
Proof.
  unfold extension_content_type.
  destruct (String.eqb_spec ext "png") as [->|_]; [now intros [= <-]|].
  destruct (String.eqb_spec ext "jpg") as [->|_]; [now intros [= <-]|].
  destruct (String.eqb_spec ext "jpeg") as [->|_]; [now intros [= <-]|].
  destruct (String.eqb_spec ext "webp") as [->|_]; [now intros [= <-]|].
  destruct (String.eqb_spec ext "gif") as [->|_]; [now intros [= <-]|].
  discriminate.
Qed.

Lemma unrecognised_extension_is_missing (ext : string) :
  extension_content_type ext = None ->
  mem ext Object_prototype_keys = false ->
  lookup mimeFromExt ext = Missing.
Proof.
  intros H Hproto. unfold lookup. rewrite Hproto. revert H.
  unfold extension_content_type, mimeFromExt, assoc.
  rewrite !(String.eqb_sym _ ext).
  destruct (String.eqb ext "png"); [discriminate|].
  destruct (String.eqb ext "jpg"); [discriminate|].
  destruct (String.eqb ext "jpeg"); [discriminate|].
  destruct (String.eqb ext "webp"); [discriminate|].
  destruct (String.eqb ext "gif"); [discriminate|].
  reflexivity.
Qed.

Lemma new_Blob_recognised (bytes : list byte) (ext type : string) :
  extension_content_type ext = Some type ->
  new_Blob bytes type = mkBlob bytes type None.
Proof.
  unfold extension_content_type.
  repeat match goal with
         | |- context [if ?c then _ else _] => destruct c
         end; try discriminate; intros [= <-]; reflexivity.
Qed.

(** C5.  On a host with a file system, a path whose extension is png,
    jpg, jpeg, webp or gif is given the content type of the extension
    map whatever bytes the file holds; the signature of the bytes
    decides only for an extension the map does not have. *)
Theorem toBlob_path_type_follows_extension (h : Host) (path : string)
    (buffer : list byte) :
  isNode h = true ->
  readFile h path = Normal buffer ->
  (forall type,
      extension_content_type (extension h path) = Some type ->
      toBlob h (InString path) = Normal (mkBlob buffer type None))
  /\ (extension_content_type (extension h path) = None ->
      mem (extension h path) Object_prototype_keys = false ->
      toBlob h (InString path)
      = Normal (mkBlob buffer (detectMimeType buffer) None)).
Proof.
  intros Hnode Hread. unfold toBlob, extension.
  rewrite Hnode, Hread. cbn [negb bind]. split.
  - intros type Hext.
    rewrite (recognised_extension_is_own _ _ Hext).
    now rewrite (new_Blob_recognised _ _ _ Hext).
  - intros Hext Hproto.
    rewrite (unrecognised_extension_is_missing _ Hext Hproto).
    now rewrite new_Blob_detected.
Qed.

Lemma toBlob_path_type_follows_extension_witness :
  toBlob Hosts.node18 (InString "/tmp/dog.PNG")
  = Normal (mkBlob Hosts.jpeg_bytes "image/png" None).
Proof.
  apply (toBlob_path_type_follows_extension
           Hosts.node18 "/tmp/dog.PNG" Hosts.jpeg_bytes);
    reflexivity.
Defined.

Lemma getExtension_generated (h : Host) (type : string) :
  mem type Object_prototype_keys = false ->
  getExtension h type = Terms.generated_extension type.
Proof.
  intros Hproto. unfold getExtension, lookup. rewrite Hproto.
  unfold assoc, Terms.generated_extension.
  rewrite !(String.eqb_sym _ type).
  repeat match goal with
         | |- context [String.eqb type ?k] => destruct (String.eqb type k)
         end; reflexivity.
Qed.

(** C9, as the code has it.  A Blob or File is returned as it is, bytes
    and content type untouched.  The name of a File becomes the
    filename on a host that defines the global [File]; a blob without a
    name, and any blob on a host without that global, gets the
    generated [image.<ext>], where [<ext>] is png, jpg, webp or gif for
    the four image types and bin for any other type that is no property
    name of [Object.prototype]. *)
Theorem toBlob_returns_a_blob_unchanged (h : Host) (b : Blob) :
  toBlob h (InBlob b) = Normal b
  /\ (forall name,
        blob_name b = Some name ->
        File_defined h = true ->
        getFilename h (InBlob b) (blob_type b) = name)
  /\ (blob_name b = None \/ File_defined h = false ->
      getFilename h (InBlob b) (blob_type b)
      = "image." ++ getExtension h (blob_type b))
  /\ (forall type,
        mem type Object_prototype_keys = false ->
        getExtension h type = Terms.generated_extension type).
Proof.
  split; [reflexivity|]. split; [|split].
  - intros name Hname Hfile. unfold getFilename.
    destruct b as [bytes type n]. simpl in *. now rewrite Hname, Hfile.
  - unfold getFilename. destruct b as [bytes type [n|]]; cbn [blob_name].
    + intros [H|H]; [discriminate|]. now rewrite H.
    + reflexivity.
  - apply getExtension_generated.
Qed.

Lemma toBlob_returns_a_blob_unchanged_witness :
  getFilename Hosts.node20 (InBlob Hosts.portrait) (blob_type Hosts.portrait)
  = "portrait.png".
Proof.
  apply (proj1 (proj2 (toBlob_returns_a_blob_unchanged Hosts.node20
                         Hosts.portrait)));
    reflexivity.
Defined.

(** C9 fails where the host has no global [File] (Node.js 18): the
    name the input carries is dropped for a generated one. *)
Lemma named_blob_loses_its_name_without_global_File :
  toBlob Hosts.node18 (InBlob Hosts.portrait) = Normal Hosts.portrait
  /\ blob_name Hosts.portrait = Some "portrait.png"
  /\ getFilename Hosts.node18 (InBlob Hosts.portrait) (blob_type Hosts.portrait)
     = "image.png"
  /\ getFilename Hosts.node18 (InBlob Hosts.portrait) (blob_type Hosts.portrait)
     <> "portrait.png".
Proof. repeat split; try reflexivity. discriminate. Qed.

(** C3, as the code has it.  A value that is none of the members of
    ImageInput fails with a plain [Error] that names its [typeof]; a
    path on a host that is not Node.js fails with a plain [Error] too.
    The two differ by their messages only. *)
Theorem toBlob_fails_with_plain_errors :
  (forall h t, toBlob h (InOther t) = Throw (ExError (unsupported_message t)))
  /\ (forall h path,
        isNode h = false ->
        toBlob h (InString path) = Throw (ExError no_file_system_message))
  /\ (forall t, unsupported_message t <> no_file_system_message)
  /\ (forall t,
        exn_kind (ExError (unsupported_message t)) = "Error"
        /\ exn_kind (ExError no_file_system_message) = "Error").
Proof.
  split; [reflexivity|]. split; [|split].
  - intros h path Hnode. unfold toBlob. now rewrite Hnode.
  - intros []; discriminate.
  - intros t. split; reflexivity.
Qed.

Lemma toBlob_fails_with_plain_errors_witness :
  toBlob Hosts.browser (InString "cat.png")
  = Throw (ExError no_file_system_message).
Proof.
  destruct toBlob_fails_with_plain_errors as (_ & P & _).
  apply P. reflexivity.
Defined.

(** C3 fails: the two failures are not of two distinct typed kinds,
    both are instances of the one class [Error]. *)
Lemma toBlob_failures_are_of_one_kind :
  exists e1 e2,
    toBlob Hosts.browser (InOther TNumber) = Throw e1
    /\ toBlob Hosts.browser (InString "cat.png") = Throw e2
    /\ exn_kind e1 = "Error"
    /\ exn_kind e2 = "Error"
    /\ exn_kind e1 = exn_kind e2.
Proof.
  exists (ExError "Unsupported input type: number"),
         (ExError no_file_system_message).
  repeat split.
Qed.

End Normalisation.

(** ** Classifying an error payload *)

Section Classification.

Import Errors Spec.

Lemma get_payload_fields (p : ApiErrorPayload) :
  get (payload_value p) "code" = Normal (Str (p_code p))
  /\ get (payload_value p) "message" = Normal (Str (p_message p))
  /\ get (payload_value p) "request_id" = Normal (Str (p_request_id p))
  /\ get (payload_value p) "details"
     = Normal (match p_details p with Some d => Str d | None => Undefined end).
Proof.
  unfold payload_value. destruct (p_details p); repeat split.
Qed.

Lemma lookup_ERROR_MAP (code : string) :
  mem code Object_prototype_keys = false ->
  lookup ERROR_MAP code
  = if mem code enumerated_codes then Own (documented_kind code) else Missing.
Proof.
  intros Hproto. unfold lookup. rewrite Hproto.
  unfold ERROR_MAP, assoc, documented_kind, enumerated_codes, mem, existsb.
  rewrite !(String.eqb_sym _ code).
  repeat match goal with
         | |- context [String.eqb code ?k] => destruct (String.eqb code k)
         end; reflexivity.
Qed.

Lemma documented_kind_of_other_code (code : string) :
  mem code enumerated_codes = false -> documented_kind code = PoofErrorC.
Proof.
  unfold documented_kind, enumerated_codes, mem, existsb.
  repeat match goal with
         | |- context [String.eqb code ?k] => destruct (String.eqb code k)
         end; try discriminate; reflexivity.
Qed.

(** Outside the properties of [Object.prototype], [fromResponse] is the
    documented classification: the documented kind for each of the nine
    codes, the base kind for any other, and in every case the status,
    message, request id and details that were given. *)
Lemma fromResponse_classifies (p : ApiErrorPayload) (status : N) :
  mem (p_code p) Object_prototype_keys = false ->
  fromResponse (payload_value p) status
  = Normal (ExPoof (classified p status)).
Proof.
  intros Hproto. unfold fromResponse.
  destruct (get_payload_fields p) as (-> & -> & -> & ->).
  cbn [bind ToString]. rewrite (lookup_ERROR_MAP _ Hproto).
  unfold classified, new_PoofError. cbn [ToString].
  destruct (mem (p_code p) enumerated_codes) eqn:E; [reflexivity|].
  now rewrite (documented_kind_of_other_code _ E).
Qed.

Example scenario_402 :
  fromResponse
    (Obj [ ("code", Str "payment_required");
           ("message", Str "Insufficient credits");
           ("request_id", Str "r1") ]) 402
  = Normal (ExPoof {| cls := PaymentRequiredErrorC;
                      message := "Insufficient credits";
                      code := Str "payment_required";
                      status := Some 402%N;
                      Js.requestId := Str "r1";
                      details := Undefined |}).
Proof. reflexivity. Qed.

(** C2 at a code that is a property of [Object.prototype].  For the
    code [constructor] the look-up in [ERROR_MAP] finds [Object], and
    what is returned is the wrapper object of the message, which is no
    [PoofError] and has neither code nor status; for [toString] it
    finds a function that is not a constructor, and [new] throws a
    [TypeError].  Neither is the base kind carrying the code. *)
Theorem fromResponse_code_inherited_from_Object_prototype :
  mem "constructor" enumerated_codes = false
  /\ fromResponse (payload_value constructor_payload) 400
     = Normal (ExObject (Str "Not allowed"))
  /\ fromResponse (payload_value constructor_payload) 400
     <> Normal (ExPoof (classified constructor_payload 400))
  /\ fromResponse (payload_value toString_payload) 400 = Throw ExTypeError
  /\ fromResponse (payload_value toString_payload) 400
     <> Normal (ExPoof (classified toString_payload 400)).
Proof. repeat split; discriminate. Qed.

End Classification.

(** ** The client *)

Section Calls.

Import Utils Client Spec.


Lemma fetch_delivers (h : Host) (net : Network) (this : Poof)
    (url : string) (init : RequestInit) (response : Response) :
  delivers h net this (outgoing this url init) response ->
  fetch h net this url init = Normal response.
Proof.
  intros [Hin Hwith]. unfold fetch, global_fetch. now rewrite Hin, Hwith.
Qed.


Lemma handleError_not_json (response : Response) :
  r_json response = None ->
  handleError response
  = Throw (ExPoof (unknown_error (r_status response) (r_statusText response))).
Proof. intros H. unfold handleError. now rewrite H. Qed.

Lemma check_ok_not_json (response : Response) :
  r_ok response = false ->
  r_json response = None ->
  check_ok response
  = Throw (ExPoof (unknown_error (r_status response) (r_statusText response))).
Proof.
  intros Hok Hjson. unfold check_ok.
  now rewrite Hok, (handleError_not_json _ Hjson).
Qed.

(** C6.  A failing response whose body does not parse as JSON makes the
    call throw a [PoofError] of the base class with code
    [unknown_error], message [HTTP <status>: <status text>], the status
    of the response, no request id and no details. *)
Theorem failure_without_json_body_is_unknown_error (response : Response) :
  r_json response = None ->
  handleError response
  = Throw (ExPoof (unknown_error (r_status response) (r_statusText response)))
  /\ (r_ok response = false ->
      forall h net this,
        (delivers h net this (me_request this) response ->
         me h net this
         = Throw (ExPoof (unknown_error (r_status response)
                            (r_statusText response))))
        /\ (forall input options formData,
              removeBackground_form h input options = Normal formData ->
              delivers h net this (remove_request this formData) response ->
              removeBackground h net this input options
              = Throw (ExPoof (unknown_error (r_status response)
                                 (r_statusText response))))).
Proof.
  intros Hjson. split; [now apply handleError_not_json|].
  intros Hok h net this. split.
  - intros Hd. unfold me.
    rewrite (fetch_delivers _ _ _ _ _ _ Hd). cbn [bind].
    now rewrite (check_ok_not_json _ Hok Hjson).
  - intros input options formData Hform Hd. unfold removeBackground.
    rewrite Hform. cbn [bind].
    rewrite (fetch_delivers _ _ _ _ _ _ Hd). cbn [bind].
    now rewrite (check_ok_not_json _ Hok Hjson).
Qed.

Lemma failure_without_json_body_witness :
  me Hosts.node18 (Hosts.answers 120 Hosts.html_500) Hosts.a_client
  = Throw (ExPoof (unknown_error 500 "Internal Server Error"))
  /\ removeBackground Hosts.node18 (Hosts.answers 120 Hosts.html_500)
       Hosts.a_client (InUint8Array Hosts.png_bytes) Hosts.no_options
     = Throw (ExPoof (unknown_error 500 "Internal Server Error")).
Proof.
  destruct (failure_without_json_body_is_unknown_error Hosts.html_500
              eq_refl) as [_ H].
  destruct (H eq_refl Hosts.node18 (Hosts.answers 120 Hosts.html_500)
              Hosts.a_client) as [Hme Hremove].
  split.
  - apply Hme. split; reflexivity.
  - apply (Hremove _ _ [Hosts.png_part]); [reflexivity|].
    split; reflexivity.
Defined.

Example unknown_error_500 :
  unknown_error 500 "Internal Server Error"
  = {| cls := PoofErrorC;
       message := "HTTP 500: Internal Server Error";
       code := Str "unknown_error";
       status := Some 500%N;
       Js.requestId := Undefined;
       details := Undefined |}.
Proof. reflexivity. Qed.

(** C6 fails on a failing response whose body is JSON but no error
    payload: the empty object gives an error whose code is [undefined]
    and whose message is empty, [null] a [TypeError] that is no
    [PoofError] at all; neither is the [unknown_error]. *)
Lemma json_of_another_shape_is_not_unknown_error :
  me Hosts.node18
    (Hosts.answers 120 (Terms.failed_json 500 (Obj []))) Hosts.a_client
  = Throw (ExPoof {| cls := PoofErrorC;
                     message := "";
                     code := Undefined;
                     status := Some 500%N;
                     Js.requestId := Undefined;
                     details := Undefined |})
  /\ me Hosts.node18
       (Hosts.answers 120 (Terms.failed_json 500 (Obj []))) Hosts.a_client
     <> Throw (ExPoof (unknown_error 500 ""))
  /\ me Hosts.node18
       (Hosts.answers 120 (Terms.failed_json 500 Null)) Hosts.a_client
     = Throw ExTypeError
  /\ handleError (Terms.failed_json 500 (Obj []))
     <> Throw (ExPoof (unknown_error 500 "")).
Proof. repeat split; discriminate. Qed.

(** A body that is JSON goes to [fromResponse], whatever it holds. *)
Example handleError_empty_object :
  handleError (Hosts.ok_json (Obj []))
  = Throw (ExPoof {| cls := PoofErrorC;
                     message := "";
                     code := Undefined;
                     status := Some 200%N;
                     Js.requestId := Undefined;
                     details := Undefined |}).
Proof. reflexivity. Qed.

(** The timers of Node.js and of browsers fire no later than asked. *)
Lemma node_timer_in_time (ms : N) :
  (1 <= ms)%N -> (Hosts.node_timer_delay ms <= ms)%N.
Proof.
  intros H. unfold Hosts.node_timer_delay.
  destruct ((ms <? 1) || (2147483647 <? ms))%N; lia.
Qed.

Lemma browser_timer_in_time (ms : N) :
  (Hosts.browser_timer_delay ms <= ms)%N.
Proof.
  unfold Hosts.browser_timer_delay.
  destruct (2147483648 <=? ms mod 4294967296)%N; [lia|].
  apply N.Div0.mod_le.
Qed.



(** C1, as the code has it.  A successful [me()] returns the parsed
    JSON body itself: no field is renamed, added or dropped, so that a
    field of the result is the field of the same name of the body.  A
    body with the fields of [AccountInfo] is an [AccountInfo], and its
    [autoRechargeThreshold: null] stays [null]. *)
Theorem me_returns_the_body_as_it_is (h : Host) (net : Network)
    (this : Poof) (response : Response) (body : value) :
  delivers h net this (me_request this) response ->
  r_ok response = true ->
  r_json response = Some body ->
  me h net this = Normal body.
Proof.
  intros Hd Hok Hjson. unfold me.
  rewrite (fetch_delivers _ _ _ _ _ _ Hd). cbn [bind].
  unfold check_ok. rewrite Hok. cbn [negb bind]. now rewrite Hjson.
Qed.

Lemma me_returns_the_body_witness :
  me Hosts.node18 (Hosts.answers 120 (Hosts.ok_json Hosts.account_body))
    Hosts.a_client
  = Normal Hosts.account_body
  /\ get Hosts.account_body "organizationId" = Normal (Str "o1")
  /\ get Hosts.account_body "autoRechargeThreshold" = Normal Null.
Proof.
  split; [|split; reflexivity].
  apply (me_returns_the_body_as_it_is Hosts.node18 _ Hosts.a_client
           (Hosts.ok_json Hosts.account_body)).
  - split; reflexivity.
  - reflexivity.
  - reflexivity.
Defined.

(** C1 fails on a body whose fields are named with underscores: the
    result has those names, and reading [organizationId] or
    [autoRechargeThreshold] from it gives [undefined]. *)
Lemma me_does_not_rename_fields :
  me Hosts.node18
    (Hosts.answers 120 (Hosts.ok_json Hosts.snake_account_body))
    Hosts.a_client
  = Normal Hosts.snake_account_body
  /\ get Hosts.snake_account_body "organization_id" = Normal (Str "o1")
  /\ get Hosts.snake_account_body "organizationId" = Normal Undefined
  /\ get Hosts.snake_account_body "auto_recharge_threshold" = Normal Null
  /\ get Hosts.snake_account_body "autoRechargeThreshold" = Normal Undefined
  /\ get Hosts.snake_account_body "autoRechargeThreshold" <> Normal Null.
Proof. repeat split. discriminate. Qed.

Ltac no_dup :=
  repeat (constructor; [simpl; intuition discriminate|]); constructor.

(** C8, as the code has it.  The form of a [removeBackground] call has
    the normalised payload under [image_file] and, of [format],
    [channels], [bg_color], [size] and [crop], exactly those the caller
    gave with a value other than the empty string, each once, [crop] as
    the string [true] or [false]; and that form is the body of the one
    request the call depends on. *)
Theorem removeBackground_form_has_the_given_options (h : Host)
    (input : ImageInput) (options : RemoveBackgroundOptions)
    (formData : FormData) :
  removeBackground_form h input options = Normal formData ->
  (exists blob,
      toBlob h input = Normal blob
      /\ field formData "image_file"
         = Some (FormFile blob (getFilename h input (blob_type blob))))
  /\ field formData "format"
     = sent (option_map ImageFormat_string (format options))
  /\ field formData "channels"
     = sent (option_map Channels_string (channels options))
  /\ field formData "bg_color"
     = sent (match bgColor options with
             | Some "" => None
             | color => color
             end)
  /\ field formData "size"
     = sent (option_map ImageSize_string (size options))
  /\ field formData "crop"
     = sent (option_map (fun b : bool => if b then "true" else "false")
               (crop options))
  /\ NoDup (field_names formData)
  /\ incl (field_names formData) option_names
  /\ (forall this, req_body (remove_request this formData) = Some formData)
  /\ (forall net net' this,
        net (remove_request this formData)
        = net' (remove_request this formData) ->
        removeBackground h net this input options
        = removeBackground h net' this input options).
Proof.
  intros Hform.
  assert (Hnet : forall net net' this,
             net (remove_request this formData)
             = net' (remove_request this formData) ->
             removeBackground h net this input options
             = removeBackground h net' this input options).
  { intros net net' this E. unfold removeBackground.
    rewrite Hform. cbn [bind]. unfold fetch, global_fetch.
    change (outgoing this (this_baseUrl this ++ "/remove")
              (remove_init formData))
      with (remove_request this formData).
    now rewrite E. }
  unfold removeBackground_form in Hform.
  destruct (toBlob h input) as [blob|x] eqn:Hblob; cbn [bind] in Hform;
    [|discriminate].
  injection Hform as <-.
  destruct options as [f c color s cr]. cbn [format channels bgColor size crop].
  destruct f as [f|], c as [c|], color as [[|a color]|], s as [s|],
    cr as [[|]|];
    (split; [exists blob; split; reflexivity|]);
    (do 5 (split; [reflexivity|]));
    (split; [unfold field_names, append; simpl; no_dup|]);
    (split; [unfold field_names, append, option_names, incl; simpl; tauto|]);
    (split; [reflexivity|exact Hnet]).
Qed.

Lemma removeBackground_form_witness :
  field [Hosts.png_part; ("format", FormString "webp");
         ("crop", FormString "true")] "format"
  = Some (FormString "webp")
  /\ field [Hosts.png_part; ("format", FormString "webp");
            ("crop", FormString "true")] "crop"
     = Some (FormString "true")
  /\ field [Hosts.png_part; ("format", FormString "webp");
            ("crop", FormString "true")] "channels" = None
  /\ field [Hosts.png_part; ("format", FormString "webp");
            ("crop", FormString "true")] "bg_color" = None
  /\ field [Hosts.png_part; ("format", FormString "webp");
            ("crop", FormString "true")] "size" = None.
Proof.
  destruct (removeBackground_form_has_the_given_options Hosts.node18
              (InUint8Array Hosts.png_bytes) Hosts.webp_cropped
              [Hosts.png_part; ("format", FormString "webp");
               ("crop", FormString "true")] eq_refl)
    as (_ & Hformat & Hchannels & Hcolor & Hsize & Hcrop & _).
  repeat split; assumption.
Defined.

(** The two end-to-end scenarios of C8. *)
Example form_of_webp_cropped :
  removeBackground_form Hosts.node18 (InUint8Array Hosts.png_bytes)
    Hosts.webp_cropped
  = Normal [Hosts.png_part; ("format", FormString "webp");
            ("crop", FormString "true")].
Proof. reflexivity. Qed.

Example form_of_no_options :
  removeBackground_form Hosts.node18 (InUint8Array Hosts.png_bytes)
    Hosts.no_options
  = Normal [Hosts.png_part].
Proof. reflexivity. Qed.

(** C8 fails for a background colour given as the empty string: the
    caller supplied the option, the form does not have the field. *)
Lemma empty_bgColor_is_not_sent :
  bgColor Hosts.empty_bgColor = Some ""
  /\ removeBackground_form Hosts.node18 (InUint8Array Hosts.png_bytes)
       Hosts.empty_bgColor
     = Normal [Hosts.png_part]
  /\ field [Hosts.png_part] "bg_color" = None.
Proof. repeat split. Qed.

End Calls.

(* ================================================================== *)
(** * Further properties *)
(* ================================================================== *)

(** ** Paths and filenames *)

Section Filenames.

Import Utils Terms.

Lemma split_without_separator (name : string) :
  has_separator name = false -> split name = [name].
Proof.
  induction name as [|c r IH]; [reflexivity|].
  cbn [has_separator split]. intros H.
  apply orb_false_elim in H as [Hc Hr].
  rewrite Hc, (IH Hr). reflexivity.
Qed.

Lemma split_with_separator (dir : string) (c : ascii) (rest : string) :
  is_separator c = true ->
  exists p q qs, split (dir ++ String c rest) = p :: q :: qs.
Proof.
  intros Hc. induction dir as [|x dir IH].
  - cbn [String.append split]. rewrite Hc.
    destruct (split rest) as [|q qs] eqn:E.
    + destruct rest as [|y rest]; [discriminate|].
      cbn [split] in E. destruct (is_separator y); [discriminate|].
      destruct (split rest); discriminate.
    + now exists "", q, qs.
  - destruct IH as (p & q & qs & E). cbn [String.append split]. rewrite E.
    destruct (is_separator x); eauto.
Qed.

Lemma last_split_after_separator (dir : string) (c : ascii) (name : string) :
  is_separator c = true ->
  has_separator name = false ->
  last (split (dir ++ String c name)) "" = name.
Proof.
  intros Hc Hname. induction dir as [|x dir IH].
  - cbn [String.append split]. rewrite Hc.
    now rewrite (split_without_separator _ Hname).
  - destruct (split_with_separator dir c name Hc) as (p & q & qs & E).
    cbn [String.append split]. rewrite E in *.
    destruct (is_separator x); exact IH.
Qed.

(** X1.  [split] cuts a path at each slash and backslash: there is one
    part more than there are separators, and no part holds one. *)
Theorem split_cuts_at_every_separator (path : string) :
  length (split path) = S (separators path)
  /\ (forall part, In part (split path) -> has_separator part = false).
Proof.
  induction path as [|c r [IHlen IHparts]].
  - split; [reflexivity|]. intros part [<-|[]]. reflexivity.
  - cbn [split separators]. destruct (is_separator c) eqn:Hc.
    + split; [simpl; now rewrite IHlen|].
      intros part [<-|H]; [reflexivity|now apply IHparts].
    + destruct (split r) as [|q qs]; [discriminate|]. split.
      * simpl in *. exact IHlen.
      * intros part [<-|H].
        -- cbn [has_separator]. rewrite Hc. apply IHparts. now left.
        -- apply IHparts. now right.
Qed.

Lemma split_cuts_at_every_separator_witness :
  has_separator "cat.png" = false.
Proof.
  apply (proj2 (split_cuts_at_every_separator "/tmp\cat.png")).
  simpl. tauto.
Defined.

(** X2.  On Node.js the filename of a path is what follows its last
    slash or backslash, and the whole path when it has none; a path
    that is empty or ends in a separator gets the generated name. *)
Theorem getFilename_is_the_last_segment (h : Host) (mimeType : string) :
  isNode h = true ->
  (forall dir c name,
      is_separator c = true -> has_separator name = false -> name <> "" ->
      getFilename h (InString (dir ++ String c name)) mimeType = name)
  /\ (forall name,
        has_separator name = false -> name <> "" ->
        getFilename h (InString name) mimeType = name)
  /\ (forall dir c,
        is_separator c = true ->
        getFilename h (InString (dir ++ String c "")) mimeType
        = "image." ++ getExtension h mimeType)
  /\ getFilename h (InString "") mimeType
     = "image." ++ getExtension h mimeType.
Proof.
  intros Hnode. unfold getFilename. rewrite Hnode.
  split; [|split; [|split]].
  - intros dir c name Hc Hname Hne.
    rewrite (last_split_after_separator _ _ _ Hc Hname).
    destruct name; [contradiction|reflexivity].
  - intros name Hname Hne.
    rewrite (split_without_separator _ Hname). cbn [last].
    destruct name; [contradiction|reflexivity].
  - intros dir c Hc.
    now rewrite (last_split_after_separator _ _ "" Hc eq_refl).
  - reflexivity.
Qed.

Lemma getFilename_is_the_last_segment_witness :
  getFilename Hosts.node18 (InString "C:\\photos/cat.png") "image/png"
  = "cat.png"
  /\ getFilename Hosts.node18 (InString "photos/") "image/jpeg"
     = "image.jpg".
Proof.
  destruct (getFilename_is_the_last_segment Hosts.node18 "image/png"
              eq_refl) as (A & _).
  destruct (getFilename_is_the_last_segment Hosts.node18 "image/jpeg"
              eq_refl) as (_ & _ & B & _).
  split.
  - apply (A "C:\\photos" "/"%char "cat.png"); [reflexivity..|discriminate].
  - apply (B "photos" "/"%char). reflexivity.
Defined.

End Filenames.

(** ** Building a client and a request *)

Section Construction.

Import Client Terms.






Lemma named_after_set (hs : Headers) (name v : string) :
  named (toLowerCase name) (Headers_set hs name v) = 1.
Proof.
  unfold named, Headers_set. rewrite filter_app, length_app.
  cbn [filter fst]. rewrite String.eqb_refl. cbn [length].
  induction hs as [|[k w] hs IH]; [reflexivity|].
  cbn [filter fst]. destruct (String.eqb_spec k (toLowerCase name)) as [E|E].
  - cbn [negb]. exact IH.
  - cbn [negb filter fst].
    destruct (String.eqb_spec k (toLowerCase name)); [contradiction|].
    exact IH.
Qed.

Lemma assoc_after_set (hs : Headers) (name v : string) :
  assoc (toLowerCase name) (Headers_set hs name v) = Some v.
Proof.
  unfold Headers_set. induction hs as [|[k w] hs IH].
  - cbn. now rewrite String.eqb_refl.
  - cbn [filter fst]. destruct (String.eqb_spec k (toLowerCase name)) as [E|E].
    + cbn [negb]. exact IH.
    + cbn [negb app assoc].
      destruct (String.eqb_spec k (toLowerCase name)); [contradiction|].
      exact IH.
Qed.

(** X5.  When the API key is a header value the platform takes as it
    is, and the headers of the call are well formed, the request
    carries the key in the header [x-api-key], once, whatever headers
    the call itself set, its own [X-Api-Key] included; method, URL and
    body are those of the call. *)
Theorem outgoing_carries_the_credential_once (this : Poof) (url : string)
    (init : RequestInit) :
  header_value_ok (this_apiKey this) = true ->
  headers_ok init = true ->
  assoc "x-api-key" (req_headers (outgoing this url init))
  = Some (this_apiKey this)
  /\ named "x-api-key" (req_headers (outgoing this url init)) = 1
  /\ req_url (outgoing this url init) = url
  /\ req_method (outgoing this url init) = init_method init
  /\ req_body (outgoing this url init) = init_body init.
Proof.
  intros _ _.
  unfold outgoing. cbn [req_headers req_url req_method req_body].
  split; [|split; [|repeat split]].
  - apply (assoc_after_set _ "x-api-key").
  - apply (named_after_set _ "x-api-key").
Qed.

Lemma outgoing_carries_the_credential_once_witness :
  assoc "x-api-key"
    (req_headers
       (outgoing Hosts.a_client "u"
          (mkRequestInit "GET" [("X-Api-Key", "other"); ("Accept", "*/*")]
             None)))
  = Some "key".
Proof.
  apply (outgoing_carries_the_credential_once Hosts.a_client "u"
           (mkRequestInit "GET" [("X-Api-Key", "other"); ("Accept", "*/*")]
              None));
    reflexivity.
Defined.

Example outgoing_overrides_a_given_key :
  req_headers
    (outgoing Hosts.a_client "u"
       (mkRequestInit "GET" [("X-Api-Key", "other"); ("Accept", "*/*")] None))
  = [("accept", "*/*"); ("x-api-key", "key")].
Proof. reflexivity. Qed.

End Construction.

(** ** Outcomes of a call *)

Section Outcomes.

Import Utils Client Spec Terms.

Lemma handleError_throws (response : Response) :
  exists x, handleError response = Throw x.
Proof.
  destruct (handleError response) as [[]|x] eqn:E. now exists x.
Qed.

Lemma check_ok_returns (response : Response) (u : unit) :
  check_ok response = Normal u -> r_ok response = true.
Proof.
  unfold check_ok. destruct (r_ok response); [reflexivity|].
  cbn [negb]. destruct (handleError_throws response) as [x ->].
  discriminate.
Qed.

Lemma fetch_returns (h : Host) (net : Network) (this : Poof)
    (url : string) (init : RequestInit) (response : Response) :
  fetch h net this url init = Normal response ->
  delivers h net this (outgoing this url init) response.
Proof.
  unfold fetch, global_fetch, delivers.
  destruct (arrives_within _ _); [|discriminate].
  destruct (settles_with _) as [r|x].
  - intros [= ->]. now split.
  - destruct x; discriminate.
Qed.

(** X6.  A failure of the transport other than the abort of the timer
    is not wrapped: [fetch], [me] and [removeBackground] throw what the
    global [fetch] rejected with. *)
Theorem transport_failure_is_rethrown (h : Host) (net : Network)
    (this : Poof) (x : exn) :
  x <> ExAbortError ->
  (forall url init,
      arrives_within (timer_delay h (this_timeout this))
        (net (outgoing this url init)) = true ->
      settles_with (net (outgoing this url init)) = Throw x ->
      fetch h net this url init = Throw x)
  /\ (arrives_within (timer_delay h (this_timeout this))
        (net (me_request this)) = true ->
      settles_with (net (me_request this)) = Throw x ->
      me h net this = Throw x)
  /\ (forall input options formData,
        removeBackground_form h input options = Normal formData ->
        arrives_within (timer_delay h (this_timeout this))
          (net (remove_request this formData)) = true ->
        settles_with (net (remove_request this formData)) = Throw x ->
        removeBackground h net this input options = Throw x).
Proof.
  intros Hx.
  assert (F : forall url init,
             arrives_within (timer_delay h (this_timeout this))
               (net (outgoing this url init)) = true ->
             settles_with (net (outgoing this url init)) = Throw x ->
             fetch h net this url init = Throw x).
  { intros url init Hin Hwith. unfold fetch, global_fetch.
    rewrite Hin, Hwith. destruct x; try reflexivity. contradiction. }
  split; [exact F|]. split.
  - intros Hin Hwith. unfold me. now rewrite (F _ _ Hin Hwith).
  - intros input options formData Hform Hin Hwith. unfold removeBackground.
    rewrite Hform. cbn [bind]. now rewrite (F _ _ Hin Hwith).
Qed.

Lemma transport_failure_is_rethrown_witness :
  me Hosts.node18 unreachable Hosts.a_client
  = Throw (ExTransport "ECONNREFUSED").
Proof.
  apply (transport_failure_is_rethrown Hosts.node18 unreachable
           Hosts.a_client (ExTransport "ECONNREFUSED"));
    [discriminate|reflexivity|reflexivity].
Defined.

(** X7.  A call returns a value only from a response that arrived
    before the timer fired and is [ok]: [me] then returns the JSON body
    of that response, [removeBackground] its bytes, for the form built
    from the input.  A failing response never yields a result. *)
Theorem result_comes_from_an_ok_response (h : Host) (net : Network)
    (this : Poof) :
  (forall body,
      me h net this = Normal body ->
      exists response,
        delivers h net this (me_request this) response
        /\ r_ok response = true
        /\ r_json response = Some body)
  /\ (forall input options result,
        removeBackground h net this input options = Normal result ->
        exists formData response,
          removeBackground_form h input options = Normal formData
          /\ delivers h net this (remove_request this formData) response
          /\ r_ok response = true
          /\ data result = r_arrayBuffer response).
Proof.
  split.
  - intros body. unfold me.
    destruct (fetch h net this _ me_init) as [response|x] eqn:F;
      [|discriminate].
    cbn [bind].
    destruct (check_ok response) as [u|x] eqn:C; [|discriminate].
    cbn [bind]. destruct (r_json response) as [b|] eqn:J; [|discriminate].
    intros [= ->]. exists response.
    split; [exact (fetch_returns _ _ _ _ _ _ F)|].
    split; [exact (check_ok_returns _ _ C)|exact J].
  - intros input options result. unfold removeBackground.
    destruct (removeBackground_form h input options) as [formData|x] eqn:B;
      [|discriminate].
    cbn [bind].
    destruct (fetch h net this _ (remove_init formData)) as [response|x]
      eqn:F; [|discriminate].
    cbn [bind].
    destruct (check_ok response) as [u|x] eqn:C; [|discriminate].
    cbn [bind]. intros [= <-]. exists formData, response.
    split; [reflexivity|].
    split; [exact (fetch_returns _ _ _ _ _ _ F)|].
    split; [exact (check_ok_returns _ _ C)|reflexivity].
Qed.

Lemma result_comes_from_an_ok_response_witness :
  exists response,
    delivers Hosts.node18
      (Hosts.answers 120 (Hosts.ok_json Hosts.account_body)) Hosts.a_client
      (me_request Hosts.a_client) response
    /\ r_ok response = true
    /\ r_json response = Some Hosts.account_body.
Proof.
  apply (proj1 (result_comes_from_an_ok_response Hosts.node18
                  (Hosts.answers 120 (Hosts.ok_json Hosts.account_body))
                  Hosts.a_client)).
  reflexivity.
Defined.

(** X8.  A failing response whose JSON body is an error payload makes
    the call throw the classified error, with the status of the
    response: the documented class for the nine codes, the base class
    for a code that is neither one of them nor a property of
    [Object.prototype]. *)
Theorem failure_with_payload_is_classified (response : Response)
    (p : ApiErrorPayload) :
  r_ok response = false ->
  r_json response = Some (payload_value p) ->
  mem (p_code p) Object_prototype_keys = false ->
  handleError response
  = Throw (ExPoof (classified p (r_status response)))
  /\ (forall h net this,
        delivers h net this (me_request this) response ->
        me h net this = Throw (ExPoof (classified p (r_status response))))
  /\ (forall h net this input options formData,
        removeBackground_form h input options = Normal formData ->
        delivers h net this (remove_request this formData) response ->
        removeBackground h net this input options
        = Throw (ExPoof (classified p (r_status response)))).
Proof.
  intros Hok Hjson Hproto.
  assert (E : handleError response
              = Throw (ExPoof (classified p (r_status response)))).
  { unfold handleError. rewrite Hjson.
    now rewrite (fromResponse_classifies _ _ Hproto). }
  assert (C : check_ok response
              = Throw (ExPoof (classified p (r_status response)))).
  { unfold check_ok. now rewrite Hok, E. }
  split; [exact E|]. split.
  - intros h net this Hd. unfold me.
    rewrite (fetch_delivers _ _ _ _ _ _ Hd). cbn [bind]. now rewrite C.
  - intros h net this input options formData Hform Hd.
    unfold removeBackground. rewrite Hform. cbn [bind].
    rewrite (fetch_delivers _ _ _ _ _ _ Hd). cbn [bind]. now rewrite C.
Qed.

Lemma failure_with_payload_is_classified_witness :
  me Hosts.node18
    (Hosts.answers 120 (failed_json 402 (payload_value insufficient_credits)))
    Hosts.a_client
  = Throw (ExPoof {| cls := PaymentRequiredErrorC;
                     message := "Insufficient credits";
                     code := Str "payment_required";
                     status := Some 402%N;
                     Js.requestId := Str "r1";
                     details := Undefined |}).
Proof.
  refine (proj1 (proj2 (failure_with_payload_is_classified
                          (failed_json 402 (payload_value insufficient_credits))
                          insufficient_credits _ _ _))
            Hosts.node18 _ Hosts.a_client _);
    try reflexivity.
  split; reflexivity.
Defined.

End Outcomes.

(** ** More on classification, results and normalisation *)

Section Further.

Import Errors Utils Client Spec Terms.

(** X9.  [fromResponse] on any JSON value, typed or not.  [null], a
    code that does not convert to a string (an object with an own
    [toString], or an array that holds one) and, for a code that finds
    no property of [Object.prototype], a message that does not convert
    make it throw a [TypeError].  Otherwise, unless the code (as a
    property key) names a property of [Object.prototype], it returns a
    [PoofError] with the given status, the fields [code], [request_id]
    and [details] as they are, and the class documented for the code. *)
Theorem fromResponse_on_any_body (status : N) :
  fromResponse Null status = Throw ExTypeError
  /\ (forall response c m r d,
        get response "code" = Normal c ->
        get response "message" = Normal m ->
        get response "request_id" = Normal r ->
        get response "details" = Normal d ->
        (stringifies c = false ->
         fromResponse response status = Throw ExTypeError)
        /\ (stringifies c = true ->
            mem (ToString c) Object_prototype_keys = false ->
            (stringifies m = false ->
             fromResponse response status = Throw ExTypeError)
            /\ (stringifies m = true ->
                exists e,
                  fromResponse response status = Normal (ExPoof e)
                  /\ cls e = documented_kind (ToString c)
                  /\ Js.status e = Some status
                  /\ code e = c
                  /\ Js.requestId e = r
                  /\ details e = d
                  /\ (forall s, m = Str s -> message e = s)
                  /\ (m = Undefined -> message e = "")))).
Proof.
  split; [reflexivity|].
  intros response c m r d Hc Hm Hr Hd. unfold fromResponse.
  rewrite Hc, Hm, Hr, Hd. cbn [bind]. split.
  - now intros ->.
  - intros -> Hproto. cbn [negb]. rewrite (lookup_ERROR_MAP _ Hproto).
    split.
    + intros ->. now destruct (mem (ToString c) enumerated_codes).
    + intros ->. destruct (mem (ToString c) enumerated_codes) eqn:E.
      * eexists. split; [reflexivity|]. cbn.
        repeat split. -- now intros s ->. -- now intros ->.
      * eexists. split; [reflexivity|]. cbn.
        rewrite (documented_kind_of_other_code _ E).
        repeat split. -- now intros s ->. -- now intros ->.
Qed.

Lemma fromResponse_on_any_body_witness :
  (exists e,
      fromResponse (Obj [("code", Arr [Str "rate_limit_exceeded"])]) 429
      = Normal (ExPoof e)
      /\ cls e = RateLimitErrorC
      /\ Js.status e = Some 429%N
      /\ message e = "")
  /\ fromResponse (Obj [("code", Obj [("toString", Num "1")])]) 500
     = Throw ExTypeError
  /\ fromResponse
       (Obj [("code", Str "upstream_error");
             ("message", Arr [Obj [("toString", Null)]])]) 502
     = Throw ExTypeError.
Proof.
  split; [|split].
  - destruct (proj2 (proj2 (fromResponse_on_any_body 429)
                       (Obj [("code", Arr [Str "rate_limit_exceeded"])])
                       (Arr [Str "rate_limit_exceeded"])
                       Undefined Undefined Undefined
                       eq_refl eq_refl eq_refl eq_refl)
                eq_refl eq_refl)
      as [_ H].
    destruct (H eq_refl) as (e & E & C & S & _ & _ & _ & _ & M).
    exists e. repeat split; [exact E|exact C|exact S|now apply M].
  - apply (proj1 (proj2 (fromResponse_on_any_body 500)
                    (Obj [("code", Obj [("toString", Num "1")])])
                    (Obj [("toString", Num "1")])
                    Undefined Undefined Undefined
                    eq_refl eq_refl eq_refl eq_refl)).
    reflexivity.
  - apply (proj2 (proj2 (fromResponse_on_any_body 502)
                    (Obj [("code", Str "upstream_error");
                          ("message", Arr [Obj [("toString", Null)]])])
                    (Str "upstream_error")
                    (Arr [Obj [("toString", Null)]])
                    Undefined Undefined
                    eq_refl eq_refl eq_refl eq_refl)
             eq_refl eq_refl).
    reflexivity.
Defined.

(** X10.  A successful [removeBackground] returns the bytes of the
    response.  Headers that are absent or empty give the defaults: an
    empty request id, [parseInt('0')] for time, width and height, and
    [image/png]; headers that are present are taken as they are, the
    three numbers through [parseInt]. *)
Theorem removeBackground_reads_the_response (h : Host) (net : Network)
    (this : Poof) (input : ImageInput) (options : RemoveBackgroundOptions)
    (formData : FormData) (response : Response) :
  removeBackground_form h input options = Normal formData ->
  delivers h net this (remove_request this formData) response ->
  r_ok response = true ->
  exists result,
    removeBackground h net this input options = Normal result
    /\ data result = r_arrayBuffer response
    /\ (blank (r_headers_get response "X-Request-ID") ->
        blank (r_headers_get response "X-Processing-Time-Ms") ->
        blank (r_headers_get response "X-Image-Width") ->
        blank (r_headers_get response "X-Image-Height") ->
        blank (r_headers_get response "Content-Type") ->
        metadata result = default_metadata h)
    /\ (forall id ms w ht type,
          r_headers_get response "X-Request-ID" = Some id -> id <> "" ->
          r_headers_get response "X-Processing-Time-Ms" = Some ms ->
          ms <> "" ->
          r_headers_get response "X-Image-Width" = Some w -> w <> "" ->
          r_headers_get response "X-Image-Height" = Some ht -> ht <> "" ->
          r_headers_get response "Content-Type" = Some type -> type <> "" ->
          metadata result
          = mkProcessingMetadata id (parseInt10 h ms) (parseInt10 h w)
              (parseInt10 h ht) type).
Proof.
  intros Hform Hd Hok. unfold removeBackground.
  rewrite Hform. cbn [bind].
  rewrite (fetch_delivers _ _ _ _ _ _ Hd). cbn [bind].
  unfold check_ok. rewrite Hok. cbn [negb bind].
  eexists. split; [reflexivity|]. cbn [data metadata].
  split; [reflexivity|]. split.
  - unfold blank, default_metadata.
    intros [-> | ->] [-> | ->] [-> | ->] [-> | ->] [-> | ->]; reflexivity.
  - intros id ms w ht type -> Hid -> Hms -> Hw -> Hht -> Htype.
    unfold or_else.
    destruct id; [contradiction|]. destruct ms; [contradiction|].
    destruct w; [contradiction|]. destruct ht; [contradiction|].
    destruct type; [contradiction|]. reflexivity.
Qed.

Lemma removeBackground_reads_the_response_witness :
  exists result,
    removeBackground Hosts.node18 (Hosts.answers 900 processed_response)
      Hosts.a_client (InUint8Array Hosts.png_bytes) Hosts.no_options
    = Normal result
    /\ data result = Hosts.png_bytes
    /\ metadata result = mkProcessingMetadata "req_9" "42" "640" "480"
                           "image/webp".
Proof.
  destruct (removeBackground_reads_the_response Hosts.node18
              (Hosts.answers 900 processed_response) Hosts.a_client
              (InUint8Array Hosts.png_bytes) Hosts.no_options
              [Hosts.png_part] processed_response eq_refl
              (conj eq_refl eq_refl) eq_refl)
    as (result & E & D & _ & M).
  exists result. split; [exact E|]. split; [exact D|].
  apply (M "req_9" "42" "640" "480" "image/webp");
    try reflexivity; discriminate.
Defined.

(** X11.  Building the form fails only when normalising the input
    does, whatever the options; [removeBackground] then throws what
    [toBlob] threw, whatever the network would do: no request is
    made. *)
Theorem removeBackground_fails_before_any_request (h : Host)
    (input : ImageInput) (x : exn) :
  (forall options,
      removeBackground_form h input options = Throw x
      <-> toBlob h input = Throw x)
  /\ (toBlob h input = Throw x ->
      forall net this options,
        removeBackground h net this input options = Throw x).
Proof.
  split.
  - intros options. unfold removeBackground_form.
    destruct (toBlob h input) as [blob|y]; cbn [bind].
    + split; discriminate.
    + split; intros [= ->]; reflexivity.
  - intros H net this options.
    unfold removeBackground, removeBackground_form. now rewrite H.
Qed.

Lemma removeBackground_fails_before_any_request_witness :
  removeBackground Hosts.node18 Hosts.silent Hosts.a_client
    (InString "/tmp/missing.png") Hosts.webp_cropped
  = Throw (ExFs "ENOENT").
Proof.
  apply (proj2 (removeBackground_fails_before_any_request Hosts.node18
                  (InString "/tmp/missing.png") (ExFs "ENOENT"))).
  reflexivity.
Defined.

(** X12.  [toBlob] never alters bytes.  A Blob comes back as it is; the
    blob made of a buffer holds the bytes of the buffer and has no
    name; the blob made of a path holds what [readFile] read, which
    takes Node.js; and nothing else is ever turned into a blob. *)
Theorem toBlob_keeps_the_bytes (h : Host) (input : ImageInput) (blob : Blob) :
  toBlob h input = Normal blob ->
  match input with
  | InBlob b => blob = b
  | InArrayBuffer bytes | InUint8Array bytes | InBuffer bytes =>
      blob_bytes blob = bytes /\ blob_name blob = None
  | InString path =>
      isNode h = true
      /\ readFile h path = Normal (blob_bytes blob)
      /\ blob_name blob = None
  | InOther _ => False
  end.
Proof.
  destruct input as [b|bytes|bytes|bytes|path|t]; cbn [toBlob].
  - now intros [= ->].
  - intros [= <-]. split; reflexivity.
  - intros [= <-]. split; reflexivity.
  - intros [= <-]. split; reflexivity.
  - destruct (isNode h); [|discriminate]. cbn [negb].
    destruct (readFile h path) as [buffer|x]; [|discriminate].
    cbn [bind]. intros [= <-]. repeat split.
  - discriminate.
Qed.

Lemma toBlob_keeps_the_bytes_witness :
  isNode Hosts.node18 = true
  /\ readFile Hosts.node18 "/tmp/cat.png"
     = Normal (blob_bytes (mkBlob Hosts.png_bytes "image/png" None))
  /\ blob_name (mkBlob Hosts.png_bytes "image/png" None) = None.
Proof.
  apply (toBlob_keeps_the_bytes Hosts.node18 (InString "/tmp/cat.png")
           (mkBlob Hosts.png_bytes "image/png" None)).
  reflexivity.
Defined.

End Further.

(** ** Signatures, extensions and the form *)

Section Further_normalisation.

Import Utils Client Spec Terms.

Lemma byte_is_other (buffer : list byte) (i : nat) (x y : byte) :
  x <> y -> byte_is buffer i x = true -> byte_is buffer i y = false.
Proof.
  intros Hxy Hx. destruct (byte_is buffer i y) eqn:Hy; [|reflexivity].
  apply byte_is_nth_error in Hx, Hy. congruence.
Qed.

Ltac decide_bytes :=
  cbv zeta;
  repeat (match goal with
          | |- context [byte_is ?buffer ?i ?x] =>
              let E := fresh "E" in
              destruct (byte_is buffer i x) eqn:E;
              [ repeat match goal with
                       | |- context [byte_is buffer i ?y] =>
                           rewrite (byte_is_other buffer i x y
                                      ltac:(discriminate) E)
                       end
              | ]
          end; cbn [andb]);
  intuition (try reflexivity; try discriminate).

(** X13.  The order of the four tests never decides: a buffer has the
    type of a signature exactly when it holds that signature, and no
    buffer holds two. *)
Theorem detectMimeType_holds_its_signature (buffer : list byte) :
  (detectMimeType buffer = "image/png" <-> has_bytes buffer 0 PNG = true)
  /\ (detectMimeType buffer = "image/jpeg"
      <-> has_bytes buffer 0 JPEG = true)
  /\ (detectMimeType buffer = "image/webp"
      <-> has_bytes buffer 0 RIFF = true /\ has_bytes buffer 8 WEBP = true)
  /\ (detectMimeType buffer = "image/gif" <-> has_bytes buffer 0 GIF = true).
Proof.
  unfold PNG, JPEG, RIFF, WEBP, GIF.
  rewrite !has_bytes_cons, !has_bytes_nil, !andb_true_r.
  unfold detectMimeType.
  split; [|split; [|split]].
  - decide_bytes.
  - decide_bytes.
  - rewrite <- andb_true_iff. decide_bytes.
  - decide_bytes.
Qed.

Lemma own_types (ext type : string) :
  lookup mimeFromExt ext = Own type ->
  type = "image/png" \/ type = "image/jpeg" \/ type = "image/webp"
  \/ type = "image/gif".
Proof.
  unfold lookup, mimeFromExt, assoc.
  repeat match goal with
         | |- context [String.eqb ?k ext] => destruct (String.eqb k ext)
         end;
    try (intros [= <-]; tauto).
  destruct (mem ext Object_prototype_keys); discriminate.
Qed.

(** X14.  [getExtension] inverts the extension map: the extension it
    gives for a type of the map is mapped back to that type.  For the
    type detected in any buffer it gives png, jpg, webp, gif or bin,
    bin exactly for application/octet-stream, so that the filename
    generated for a buffer is one of five names on every host. *)
Theorem getExtension_inverts_the_extension_map (h : Host) :
  (forall ext type,
      lookup mimeFromExt ext = Own type ->
      lookup mimeFromExt (getExtension h type) = Own type)
  /\ (forall buffer,
        getExtension h (detectMimeType buffer) = "bin"
        <-> detectMimeType buffer = "application/octet-stream")
  /\ (forall bytes input blob,
        input = InArrayBuffer bytes \/ input = InUint8Array bytes
        \/ input = InBuffer bytes ->
        toBlob h input = Normal blob ->
        In (getFilename h input (blob_type blob)) generated_names).
Proof.
  split; [|split].
  - intros ext type H.
    destruct (own_types _ _ H) as [->|[->|[->| ->]]]; reflexivity.
  - intros buffer.
    pose proof (detectMimeType_content_type buffer) as H.
    unfold content_types in H. simpl in H.
    destruct H as [H|[H|[H|[H|[H|[]]]]]]; rewrite <- H;
      split; try reflexivity; discriminate.
  - intros bytes input blob Hin. unfold generated_names.
    pose proof (detectMimeType_content_type bytes) as H.
    unfold content_types in H. simpl in H.
    destruct Hin as [->|[->| ->]]; cbn [toBlob getFilename];
      rewrite new_Blob_detected; intros [= <-]; cbn [blob_type];
      destruct H as [H|[H|[H|[H|[H|[]]]]]]; rewrite <- H; simpl; tauto.
Qed.

Lemma getExtension_inverts_the_extension_map_witness :
  lookup mimeFromExt (getExtension Hosts.browser "image/jpeg")
  = Own "image/jpeg"
  /\ In (getFilename Hosts.browser (InBuffer Hosts.jpeg_bytes) "image/jpeg")
       generated_names.
Proof.
  destruct (getExtension_inverts_the_extension_map Hosts.browser)
    as (A & _ & C).
  split.
  - apply (A "jpeg"). reflexivity.
  - apply (C Hosts.jpeg_bytes (InBuffer Hosts.jpeg_bytes)
             (mkBlob Hosts.jpeg_bytes "image/jpeg" None)).
    + right. right. reflexivity.
    + reflexivity.
Defined.

(** X15.  The fields of the form come in one order: [image_file]
    first, then those of [format], [channels], [bg_color], [size],
    [crop] that are sent, in that order. *)
Theorem form_fields_come_in_one_order (h : Host) (input : ImageInput)
    (options : RemoveBackgroundOptions) (formData : FormData) :
  removeBackground_form h input options = Normal formData ->
  hd_error (field_names formData) = Some "image_file"
  /\ field_names formData
     = filter (fun name => mem name (field_names formData)) option_names.
Proof.
  unfold removeBackground_form.
  destruct (toBlob h input) as [blob|x]; cbn [bind]; [|discriminate].
  intros [= <-].
  destruct options as [f c color s cr]. cbn [format channels bgColor size crop].
  destruct f as [f|], c as [c|], color as [[|a color]|], s as [s|],
    cr as [[|]|]; split; reflexivity.
Qed.

Lemma form_fields_come_in_one_order_witness :
  field_names [Hosts.png_part; ("format", FormString "webp");
               ("crop", FormString "true")]
  = filter (fun name =>
              mem name (field_names
                          [Hosts.png_part; ("format", FormString "webp");
                           ("crop", FormString "true")]))
      option_names.
Proof.
  apply (form_fields_come_in_one_order Hosts.node18
           (InUint8Array Hosts.png_bytes) Hosts.webp_cropped).
  reflexivity.
Defined.

(** X16.  On Node.js the file part of a path with a recognised
    extension and a last segment that is not empty has the bytes read
    from the file, the content type of the extension and that last
    segment as its filename, whatever the options; the path may be a
    bare file name. *)
Theorem form_part_of_a_path (h : Host) (path name : string)
    (buffer : list byte) (type : string)
    (options : RemoveBackgroundOptions) :
  isNode h = true ->
  last_segment path name -> name <> "" ->
  readFile h path = Normal buffer ->
  extension_content_type (extension h path) = Some type ->
  exists formData,
    removeBackground_form h (InString path) options = Normal formData
    /\ field formData "image_file"
       = Some (FormFile (mkBlob buffer type None) name).
Proof.
  intros Hnode [Hname Hpath] Hne Hread Hext.
  assert (Hlast : last (split path) "" = name).
  { destruct Hpath as [->|(dir & c & Hc & ->)].
    - now rewrite (split_without_separator _ Hname).
    - now apply last_split_after_separator. }
  unfold removeBackground_form, toBlob, getFilename.
  rewrite Hnode, Hread. cbn [negb bind].
  unfold extension in Hext.
  rewrite (recognised_extension_is_own _ _ Hext).
  rewrite (new_Blob_recognised _ _ _ Hext).
  rewrite Hlast.
  destruct name as [|n0 name]; [contradiction|].
  eexists. split; [reflexivity|].
  destruct options as [f ch color s cr]. cbn [format channels bgColor size crop].
  destruct f as [f|], ch as [ch|], color as [[|a color]|], s as [s|],
    cr as [[|]|]; reflexivity.
Qed.

Lemma form_part_of_a_path_witness :
  exists formData,
    removeBackground_form Hosts.node18 (InString "/tmp/dog.PNG")
      Hosts.no_options
    = Normal formData
    /\ field formData "image_file"
       = Some (FormFile (mkBlob Hosts.jpeg_bytes "image/png" None) "dog.PNG").
Proof.
  apply (form_part_of_a_path Hosts.node18 "/tmp/dog.PNG" "dog.PNG");
    try reflexivity; try discriminate.
  split; [reflexivity|]. right. exists "/tmp", "/"%char. split; reflexivity.
Defined.

End Further_normalisation.
